(** * nomad_exporter: a shallow embedding of [nomad_exporter.go]

    The exporter polls one health endpoint, decodes a small JSON document
    and republishes the numbers as Prometheus gauges.  The development
    follows the Go file top to bottom:

    - [prometheus]: gauges and their descriptors, as far as the exporter
      uses the client library ([NewGauge], [Set], [Desc]);
    - [json]: parsed JSON documents and the way [encoding/json] stores one
      into a [nomadHealth] struct (key matching, null, type mismatches);
    - [exporter]: the package-level metric variables as one record, and
      [init], [scrape], [Collect] and [Describe] as functions over it.

    Numbers are Go [float64]s, embedded as Rocq's binary64 [float]; Go maps
    are [gmap]s, a nil map being [None]. *)

From Stdlib Require Import Floats.PrimFloat ZArith NArith Ascii String.
From stdpp Require Import gmap strings list fin_maps.

Local Open Scope string_scope.

Abbreviation float64 := float (only parsing).

(** A Go map of type [map[string]float64]; [None] is the nil map, the zero
    value of the type.  [range] over a nil map runs no iteration. *)
Abbreviation gomap := (option (gmap string float)) (only parsing).

Definition go_range (m : gomap) : gmap string float := default ∅ m.

(* ===================================================================== *)
(** ** The Prometheus client, as used by the exporter *)
(* ===================================================================== *)

Module prometheus.

(** [prometheus.Labels]; nil and the empty map are both [∅]. *)
Abbreviation Labels := (gmap string string) (only parsing).

Record GaugeOpts := {
  Namespace : string;
  Name : string;
  Help : string;
  ConstLabels : Labels
}.

(** [BuildFQName] with an empty subsystem, the only way the exporter
    calls it (through [GaugeOpts] without [Subsystem]). *)
Definition BuildFQName (namespace name : string) : string :=
  if String.eqb name "" then ""
  else if String.eqb namespace "" then name
  else namespace +:+ "_" +:+ name.

Record Desc := {
  fqName : string;
  help : string;
  constLabels : Labels
}.

(** A gauge: its descriptor and the stored value ([valBits]). *)
Record Gauge := {
  desc : Desc;
  value : float64
}.

Definition NewGauge (opts : GaugeOpts) : Gauge :=
  {| desc := {| fqName := BuildFQName (Namespace opts) (Name opts);
                help := Help opts;
                constLabels := ConstLabels opts |};
     value := 0%float |}.

(** [g.Set(v)] *)
Definition Set_ (v : float64) (g : Gauge) : Gauge :=
  {| desc := desc g; value := v |}.

End prometheus.

(* ===================================================================== *)
(** ** JSON documents and [encoding/json]'s struct decoding *)
(* ===================================================================== *)

Module json.

(** A syntactically valid JSON value.  A number carries the [float64]
    that [strconv.ParseFloat] yields for its literal, or [None] when the
    literal is out of the [float64] range.  Object members keep the order
    and the repetitions of the document; keys are already unquoted. *)
#[warnings="-register-all"]
Inductive value :=
| Null
| Bool (b : bool)
| Number (n : option float64)
| Str (s : string)
| Array (l : list value)
| Object (members : list (string * value)).

(** [caseMask = ^byte(0x20)]: and-ing with it clears the bit that tells a
    lower-case ASCII letter from its upper-case form. *)
Definition caseMask : N := 223.

(** UTF-8 encodings of U+017F (long s) and U+212A (Kelvin sign), the two
    non-ASCII runes whose simple case folding is an ASCII letter. *)
Definition smallLongEss : string :=
  String (ascii_of_N 197) (String (ascii_of_N 191) EmptyString).
Definition kelvin : string :=
  String (ascii_of_N 226) (String (ascii_of_N 132) (String (ascii_of_N 170) EmptyString)).

(** [strip p t]: [t] without its prefix [p], when it has it. *)
Fixpoint strip (p t : string) : option string :=
  match p with
  | EmptyString => Some t
  | String a p' =>
      match t with
      | EmptyString => None
      | String b t' => if Ascii.eqb a b then strip p' t' else None
      end
  end.

Definition isS (sb : ascii) : bool := Ascii.eqb sb "s" || Ascii.eqb sb "S".
Definition isK (sb : ascii) : bool := Ascii.eqb sb "k" || Ascii.eqb sb "K".

(** [equalFoldRight s t]: the decoder's case-insensitive comparison of a
    field name [s], all ASCII, with a key [t] of the document.  Every tag
    of [nomadHealth] contains an [s], which selects this variant of the
    fold function. *)
Fixpoint equalFoldRight (s t : string) : bool :=
  match s with
  | EmptyString => match t with EmptyString => true | _ => false end
  | String sb s' =>
      match t with
      | EmptyString => false
      | String tb t' =>
          if (N_of_ascii tb <? 128)%N then
            if Ascii.eqb sb tb then equalFoldRight s' t'
            else
              let sbUpper := N.land (N_of_ascii sb) caseMask in
              if ((65 <=? sbUpper) && (sbUpper <=? 90))%N then
                if (sbUpper =? N.land (N_of_ascii tb) caseMask)%N
                then equalFoldRight s' t' else false
              else false
          else
            (* sb is ASCII and t is not: t must start with the long s or
               the Kelvin sign, and sb must be the letter it folds to *)
            if isS sb then
              match strip smallLongEss t with
              | Some rest => equalFoldRight s' rest
              | None => false
              end
            else if isK sb then
              match strip kelvin t with
              | Some rest => equalFoldRight s' rest
              | None => false
              end
            else false
      end
  end.

(** The scanner's bound on nesting: it refuses a value with more than
    [maxNestingDepth] arrays and objects open at once ("exceeded max
    depth"). *)
Definition maxNestingDepth : N := 10000.

(** The largest number of arrays and objects open at once inside a
    value; 0 for a scalar. *)
Fixpoint depth (v : value) : N :=
  match v with
  | Array l => N.succ (fold_right (λ x d, N.max (depth x) d) 0%N l)
  | Object members =>
      N.succ (fold_right (λ kv d, N.max (match kv with (_, x) => depth x end) d)
                         0%N members)
  | _ => 0%N
  end.

End json.

(* ===================================================================== *)
(** ** The decoded payload *)
(* ===================================================================== *)

(** [type nomadHealth struct]; the commented-out fields of the Go struct
    are not fields. *)
Record nomadHealth := {
  UpTimeSec : float64;
  StatusCodeCount : gomap;
  TotalStatusCodeCount : gomap;
  TotalResponseTimeSec : float64;
  AverageResponseTimeSec : float64
}.

(** [var data nomadHealth]: every field at the zero value of its type. *)
Definition zero_nomadHealth : nomadHealth :=
  {| UpTimeSec := 0%float;
     StatusCodeCount := None;
     TotalStatusCodeCount := None;
     TotalResponseTimeSec := 0%float;
     AverageResponseTimeSec := 0%float |}.

(** The fields of [nomadHealth], in declaration order, and their
    [json:"..."] tags. *)
Inductive field :=
| F_UpTimeSec
| F_StatusCodeCount
| F_TotalStatusCodeCount
| F_TotalResponseTimeSec
| F_AverageResponseTimeSec.

Definition fields : list field :=
  [F_UpTimeSec; F_StatusCodeCount; F_TotalStatusCodeCount;
   F_TotalResponseTimeSec; F_AverageResponseTimeSec].

Definition tag (f : field) : string :=
  match f with
  | F_UpTimeSec => "uptime_sec"
  | F_StatusCodeCount => "status_code_count"
  | F_TotalStatusCodeCount => "total_status_code_count"
  | F_TotalResponseTimeSec => "total_response_time_sec"
  | F_AverageResponseTimeSec => "average_response_time_sec"
  end.

Module decode.
Import json.

(** The decoder's search for the field of a key: an exact match wins and
    ends the search; otherwise the first field whose tag equals the key
    up to case folding. *)
Fixpoint lookupField (fs : list field) (f : option field) (key : string)
  : option field :=
  match fs with
  | [] => f
  | ff :: fs' =>
      if String.eqb (tag ff) key then Some ff
      else lookupField fs'
             (match f with
              | None => if equalFoldRight (tag ff) key then Some ff else None
              | Some _ => f
              end) key
  end.

(** A key is recognised when the search finds a field for it. *)
Definition fieldOf (key : string) : option field := lookupField fields None key.

(** Storing a JSON value into a [float64] that holds [cur]: null leaves
    it alone, a number in range is stored, anything else is an
    [UnmarshalTypeError]. *)
Definition storeFloat (v : value) (cur : float64) : option float64 :=
  match v with
  | Null => Some cur
  | Number (Some x) => Some x
  | _ => None
  end.

(** The members of an object stored into a map: each element starts from
    the zero value, and a later member with the same key overwrites an
    earlier one. *)
Fixpoint storeMembers (members : list (string * value)) (m : gmap string float)
  : option (gmap string float) :=
  match members with
  | [] => Some m
  | (k, v) :: rest =>
      match storeFloat v 0%float with
      | Some x => storeMembers rest (<[k := x]> m)
      | None => None
      end
  end.

(** Storing a JSON value into a [map[string]float64] that holds [cur]:
    null sets the map to nil, an object allocates the map if it is nil
    and stores its members, anything else is an [UnmarshalTypeError]. *)
Definition storeMap (v : value) (cur : gomap) : option gomap :=
  match v with
  | Null => Some None
  | Object members => Some <$> storeMembers members (go_range cur)
  | _ => None
  end.

Definition storeField (f : field) (v : value) (d : nomadHealth)
  : option nomadHealth :=
  match f with
  | F_UpTimeSec =>
      x ← storeFloat v (UpTimeSec d);
      Some {| UpTimeSec := x;
              StatusCodeCount := StatusCodeCount d;
              TotalStatusCodeCount := TotalStatusCodeCount d;
              TotalResponseTimeSec := TotalResponseTimeSec d;
              AverageResponseTimeSec := AverageResponseTimeSec d |}
  | F_StatusCodeCount =>
      m ← storeMap v (StatusCodeCount d);
      Some {| UpTimeSec := UpTimeSec d;
              StatusCodeCount := m;
              TotalStatusCodeCount := TotalStatusCodeCount d;
              TotalResponseTimeSec := TotalResponseTimeSec d;
              AverageResponseTimeSec := AverageResponseTimeSec d |}
  | F_TotalStatusCodeCount =>
      m ← storeMap v (TotalStatusCodeCount d);
      Some {| UpTimeSec := UpTimeSec d;
              StatusCodeCount := StatusCodeCount d;
              TotalStatusCodeCount := m;
              TotalResponseTimeSec := TotalResponseTimeSec d;
              AverageResponseTimeSec := AverageResponseTimeSec d |}
  | F_TotalResponseTimeSec =>
      x ← storeFloat v (TotalResponseTimeSec d);
      Some {| UpTimeSec := UpTimeSec d;
              StatusCodeCount := StatusCodeCount d;
              TotalStatusCodeCount := TotalStatusCodeCount d;
              TotalResponseTimeSec := x;
              AverageResponseTimeSec := AverageResponseTimeSec d |}
  | F_AverageResponseTimeSec =>
      x ← storeFloat v (AverageResponseTimeSec d);
      Some {| UpTimeSec := UpTimeSec d;
              StatusCodeCount := StatusCodeCount d;
              TotalStatusCodeCount := TotalStatusCodeCount d;
              TotalResponseTimeSec := TotalResponseTimeSec d;
              AverageResponseTimeSec := x |}
  end.

(** The members of the top-level object, in document order: a key that
    no field answers to is skipped with its value. *)
Fixpoint storeObject (members : list (string * value)) (d : nomadHealth)
  : option nomadHealth :=
  match members with
  | [] => Some d
  | (k, v) :: rest =>
      match fieldOf k with
      | None => storeObject rest d
      | Some f =>
          match storeField f v d with
          | Some d' => storeObject rest d'
          | None => None
          end
      end
  end.

(** [json.NewDecoder(resp.Body).Decode(&data)] on a fresh [data].  The
    body is given as the first JSON value of the stream, [None] when the
    stream does not start with one (empty or malformed).  The decoder
    scans the whole value before it stores anything and gives up on one
    nested deeper than [maxNestingDepth], wherever the nesting is.
    [None] as a result is any decoding error. *)
Definition Decode (body : option value) : option nomadHealth :=
  match body with
  | None => None
  | Some v =>
      if (maxNestingDepth <? depth v)%N then None
      else
        match v with
        | Null => Some zero_nomadHealth
        | Object members => storeObject members zero_nomadHealth
        | _ => None
        end
  end.

End decode.

(* ===================================================================== *)
(** ** The exporter *)
(* ===================================================================== *)

Import prometheus.

Definition namespace : string := "nomad".

(** [newGauge(metricName, docString, constLabels)] *)
Definition newGauge (metricName docString : string) (constLabels : Labels) : Gauge :=
  NewGauge {| Namespace := namespace;
              Name := metricName;
              Help := docString;
              ConstLabels := constLabels |}.

(** The package-level metric variables.  The gauges held by the two maps
    are reachable through the maps only, so a map of gauge records stands
    for the Go map of gauge references. *)
Record metrics := {
  nomad_up : Gauge;
  metric_uptime : Gauge;
  metric_request_response_time_total : Gauge;
  metric_request_response_time_avg : Gauge;
  metric_request_status_count_current : gmap string Gauge;
  metric_request_status_count_total : gmap string Gauge
}.

(** The [var (...)] block followed by [func init() { nomad_up.Set(0) }]. *)
Definition init : metrics :=
  {| nomad_up := Set_ 0%float (newGauge "up" "Is Nomad up ?" ∅);
     metric_uptime := newGauge "uptime" "Current Nomad uptime" ∅;
     metric_request_response_time_total :=
       newGauge "request_response_time_total" "Total response time of Nomad requests" ∅;
     metric_request_response_time_avg :=
       newGauge "request_response_time_avg" "Average response time of Nomad requests" ∅;
     metric_request_status_count_current := ∅;
     metric_request_status_count_total := ∅ |}.

(** What [e.client.Get(e.URI)] hands back: an error, or a response with
    its status code and body. *)
Record response := {
  StatusCode : Z;
  Body : option json.value
}.

Inductive get_result :=
| GetErr (err : string)
| GetOk (resp : response).

(** The three errors [scrape] builds, by their format string. *)
Inductive scrape_error :=
| CantScrape (err : string)       (* "Can't scrape Nomad: %v" *)
| CantScrapeStatus (code : Z)     (* "Can't scrape Nomad: status %d" *)
| CantScrapeUnmarshal.            (* "Can't scrape Nomad: json.Unmarshal %v" *)

(** Body of the loop over [data.StatusCodeCount]. *)
Definition set_current (statusCode : string) (nbr : float64)
    (m : gmap string Gauge) : gmap string Gauge :=
  let m' :=
    match m !! statusCode with
    | Some _ => m
    | None =>
        <[statusCode :=
            newGauge "request_count_current" "Number of request handled by Nomad"
                     {[ "statusCode" := statusCode ]}]> m
    end in
  alter (Set_ nbr) statusCode m'.

(** Body of the loop over [data.TotalStatusCodeCount]. *)
Definition set_total (statusCode : string) (nbr : float64)
    (m : gmap string Gauge) : gmap string Gauge :=
  let m' :=
    match m !! statusCode with
    | Some _ => m
    | None =>
        <[statusCode :=
            newGauge "request_count_total" "Number of request handled by Nomad"
                     {[ "statusCode" := statusCode ]}]> m
    end in
  alter (Set_ nbr) statusCode m'.

(** The part of [scrape] after the three checks: the metric updates. *)
Definition update (data : nomadHealth) (st : metrics) : metrics :=
  {| nomad_up := Set_ 1%float (nomad_up st);
     metric_uptime := Set_ (UpTimeSec data) (metric_uptime st);
     metric_request_response_time_total :=
       Set_ (TotalResponseTimeSec data) (metric_request_response_time_total st);
     metric_request_response_time_avg :=
       Set_ (AverageResponseTimeSec data) (metric_request_response_time_avg st);
     metric_request_status_count_current :=
       map_fold set_current
         (Set_ 0%float <$> metric_request_status_count_current st)
         (go_range (StatusCodeCount data));
     metric_request_status_count_total :=
       map_fold set_total
         (metric_request_status_count_total st)
         (go_range (TotalStatusCodeCount data)) |}.

(** [func (e *Exporter) scrape() error]: the new metrics and the error,
    [None] for nil. *)
Definition scrape (get : get_result) (st : metrics) : metrics * option scrape_error :=
  match get with
  | GetErr err => (st, Some (CantScrape err))
  | GetOk resp =>
      if negb ((200 <=? StatusCode resp)%Z && (StatusCode resp <? 300)%Z)
      then (st, Some (CantScrapeStatus (StatusCode resp)))
      else
        match decode.Decode (Body resp) with
        | None => (st, Some CantScrapeUnmarshal)
        | Some data => (update data st, None)
        end
  end.

(** What one call of [Collect] leaves behind: the metrics, the gauges sent
    on the channel in sending order, and the error logged, if any. *)
Record collected := {
  after : metrics;
  sent : list Gauge;
  logged : option scrape_error
}.

(** [func (e *Exporter) Collect(ch chan<- prometheus.Metric)].  Go leaves
    the order of a [range] over a map open; the gauges of each map are
    sent here in the order of [map_to_list]. *)
Definition Collect (get : get_result) (st : metrics) : collected :=
  match scrape get st with
  | (st', Some err) =>
      let st'' :=
        {| nomad_up := Set_ 0%float (nomad_up st');
           metric_uptime := metric_uptime st';
           metric_request_response_time_total := metric_request_response_time_total st';
           metric_request_response_time_avg := metric_request_response_time_avg st';
           metric_request_status_count_current := metric_request_status_count_current st';
           metric_request_status_count_total := metric_request_status_count_total st' |} in
      {| after := st''; sent := [nomad_up st'']; logged := Some err |}
  | (st', None) =>
      {| after := st';
         sent := [nomad_up st'; metric_uptime st';
                  metric_request_response_time_total st';
                  metric_request_response_time_avg st']
                 ++ (map_to_list (metric_request_status_count_current st')).*2
                 ++ (map_to_list (metric_request_status_count_total st')).*2;
         logged := None |}
  end.

(** [func (e *Exporter) Describe(ch chan<- *prometheus.Desc)] *)
Definition Describe (st : metrics) : list Desc :=
  [desc (metric_uptime st); desc (nomad_up st);
   desc (metric_request_response_time_total st);
   desc (metric_request_response_time_avg st)]
  ++ (desc <$> (map_to_list (metric_request_status_count_current st)).*2)
  ++ (desc <$> (map_to_list (metric_request_status_count_total st)).*2).

(** The calls the registry makes on the collector, and a run of them. *)
Inductive call :=
| CallDescribe
| CallCollect (get : get_result).

Definition exec (st : metrics) (c : call) : metrics :=
  match c with
  | CallDescribe => st
  | CallCollect get => after (Collect get st)
  end.

Definition run (st : metrics) (calls : list call) : metrics :=
  foldl exec st calls.

(** The states the process can be in: [init], then any run of calls. *)
Inductive reachable : metrics → Prop :=
| reachable_init : reachable init
| reachable_exec st c : reachable st → reachable (exec st c).

(** The payload a response carries when [scrape] accepts it. *)
Definition snapshot (get : get_result) : option nomadHealth :=
  match get with
  | GetErr _ => None
  | GetOk resp =>
      if (200 <=? StatusCode resp)%Z && (StatusCode resp <? 300)%Z
      then decode.Decode (Body resp) else None
  end.

(** The gauge each loop builds for a status code it has not seen. *)
Definition mk_current (statusCode : string) : Gauge :=
  newGauge "request_count_current" "Number of request handled by Nomad"
           {[ "statusCode" := statusCode ]}.

Definition mk_total (statusCode : string) : Gauge :=
  newGauge "request_count_total" "Number of request handled by Nomad"
           {[ "statusCode" := statusCode ]}.

(** Both loop bodies are one function of the gauge built for an unseen
    status code. *)
Definition set_with (mk : string → Gauge) (statusCode : string) (nbr : float64)
    (m : gmap string Gauge) : gmap string Gauge :=
  alter (Set_ nbr) statusCode
    (match m !! statusCode with
     | Some _ => m
     | None => <[statusCode := mk statusCode]> m
     end).

(* ===================================================================== *)
(** ** Responses used in the examples *)
(* ===================================================================== *)

Module examples.
Import json.

Definition num (x : float64) : value := Number (Some x).

Definition ok (body : value) : get_result :=
  GetOk {| StatusCode := 200; Body := Some body |}.

(** A full health document. *)
Definition body_full : value :=
  Object [("uptime_sec", num 120.5%float);
          ("status_code_count", Object [("200", num 10%float); ("500", num 1%float)]);
          ("total_status_code_count", Object [("200", num 1000%float)]);
          ("total_response_time_sec", num 50%float);
          ("average_response_time_sec", num 0x1.999999999999ap-5%float)].  (* 0.05 *)

(** A later document that only reports the current count of 200. *)
Definition body_next : value :=
  Object [("status_code_count", Object [("200", num 12%float)])].

(** Two documents whose current counts are over disjoint codes while the
    cumulative count of 500 moves on. *)
Definition body_first : value :=
  Object [("status_code_count", Object [("500", num 1%float)]);
          ("total_status_code_count", Object [("500", num 5%float)])].

Definition body_second : value :=
  Object [("status_code_count", Object [("200", num 1%float)]);
          ("total_status_code_count", Object [("500", num 6%float); ("200", num 1%float)])].

(** A key that differs from a tag by case only, with a value of the wrong
    type and with a number. *)
Definition body_upper_str : value := Object [("UPTIME_SEC", Str "soon")].
Definition body_upper_num : value := Object [("UPTIME_SEC", num 5%float)].

(** [n] arrays inside one another around a null, and a document that
    carries 10000 of them under a key the struct has no field for: 10001
    levels with the object itself. *)
Definition nested (n : N) : value := N.iter n (λ v, Array [v]) Null.

Definition body_deep : value :=
  Object [("pid", nested 10000); ("uptime_sec", num 3%float)].

Definition body_shallow : value := Object [("uptime_sec", num 3%float)].

(** A document with members the struct has no field for. *)
Definition body_extra : value :=
  Object [("pid", num 42%float); ("uptime", Str "2m0.5s"); ("uptime_sec", num 120.5%float)].

(** The structs the documents above decode to. *)
Definition data_full : nomadHealth :=
  {| UpTimeSec := 120.5%float;
     StatusCodeCount := Some {[ "200" := 10%float; "500" := 1%float ]};
     TotalStatusCodeCount := Some {[ "200" := 1000%float ]};
     TotalResponseTimeSec := 50%float;
     AverageResponseTimeSec := 0x1.999999999999ap-5%float |}.

Definition data_next : nomadHealth :=
  {| UpTimeSec := 0%float;
     StatusCodeCount := Some {[ "200" := 12%float ]};
     TotalStatusCodeCount := None;
     TotalResponseTimeSec := 0%float;
     AverageResponseTimeSec := 0%float |}.

Definition data_first : nomadHealth :=
  {| UpTimeSec := 0%float;
     StatusCodeCount := Some {[ "500" := 1%float ]};
     TotalStatusCodeCount := Some {[ "500" := 5%float ]};
     TotalResponseTimeSec := 0%float;
     AverageResponseTimeSec := 0%float |}.

Definition data_second : nomadHealth :=
  {| UpTimeSec := 0%float;
     StatusCodeCount := Some {[ "200" := 1%float ]};
     TotalStatusCodeCount := Some {[ "500" := 6%float; "200" := 1%float ]};
     TotalResponseTimeSec := 0%float;
     AverageResponseTimeSec := 0%float |}.

Definition get_refused : get_result := GetErr "connection refused".
Definition get_503 : get_result := GetOk {| StatusCode := 503; Body := Some body_full |}.
Definition get_garbled : get_result := GetOk {| StatusCode := 200; Body := None |}.

End examples.

(* ===================================================================== *)
(** ** Vocabulary of the statements *)
(* ===================================================================== *)

(** The two states of the up/down flag, the number each one shows, and the
    move each call of the registry makes. *)
Inductive up_state := Up | Down.

Definition flag_of (s : up_state) : float64 :=
  match s with Up => 1%float | Down => 0%float end.

Definition next (s : up_state) (c : call) : up_state :=
  match c with
  | CallDescribe => s
  | CallCollect get => match snapshot get with Some _ => Up | None => Down end
  end.

#[global] Instance field_eq_dec : EqDecision field.
Proof. solve_decision. Defined.

(** A field of the struct read as a value of either field type. *)
Definition field_value (f : field) (d : nomadHealth) : float64 + gomap :=
  match f with
  | F_UpTimeSec => inl (UpTimeSec d)
  | F_StatusCodeCount => inr (StatusCodeCount d)
  | F_TotalStatusCodeCount => inr (TotalStatusCodeCount d)
  | F_TotalResponseTimeSec => inl (TotalResponseTimeSec d)
  | F_AverageResponseTimeSec => inl (AverageResponseTimeSec d)
  end.

(** A member of the top-level object that the decoder can store: its key
    answers to no field, or its value fits the field's type. *)
Definition member_ok (kv : string * json.value) : Prop :=
  match decode.fieldOf kv.1 with
  | None => True
  | Some f => is_Some (decode.storeField f kv.2 zero_nomadHealth)
  end.

(** What one call does to the number shown for one status code, in the
    current family and in the cumulative family: [None] while the code has
    no gauge.  A successful scrape stores the payload's number; without
    one for the code it zeroes the current gauge and leaves the cumulative
    gauge alone.  A failed cycle and [Describe] change neither. *)
Definition current_step (k : string) (v : option float64) (c : call) : option float64 :=
  match c with
  | CallDescribe => v
  | CallCollect get =>
      match snapshot get with
      | Some data =>
          match go_range (StatusCodeCount data) !! k with
          | Some nbr => Some nbr
          | None => (λ _, 0%float) <$> v
          end
      | None => v
      end
  end.

Definition total_step (k : string) (v : option float64) (c : call) : option float64 :=
  match c with
  | CallDescribe => v
  | CallCollect get =>
      match snapshot get with
      | Some data =>
          match go_range (TotalStatusCodeCount data) !! k with
          | Some nbr => Some nbr
          | None => v
          end
      | None => v
      end
  end.

(** The six facts that say [b] describes everything [a] describes, with
    the same descriptors. *)
Definition same_descriptors (a b : metrics) : Prop :=
  desc (nomad_up b) = desc (nomad_up a)
  ∧ desc (metric_uptime b) = desc (metric_uptime a)
  ∧ desc (metric_request_response_time_total b) = desc (metric_request_response_time_total a)
  ∧ desc (metric_request_response_time_avg b) = desc (metric_request_response_time_avg a)
  ∧ (∀ k g, metric_request_status_count_current a !! k = Some g →
            desc <$> metric_request_status_count_current b !! k = Some (desc g))
  ∧ (∀ k g, metric_request_status_count_total a !! k = Some g →
            desc <$> metric_request_status_count_total b !! k = Some (desc g)).

(** What one call does to the number shown by one of the three payload
    singletons, [field] being the struct field it is set from. *)
Definition singleton_step (field : nomadHealth → float64) (v : float64) (c : call)
  : float64 :=
  match c with
  | CallDescribe => v
  | CallCollect get =>
      match snapshot get with
      | Some data => field data
      | None => v
      end
  end.

(** The fully-qualified names of the six metrics of the source. *)
Definition metric_names : list string :=
  ["nomad_uptime"; "nomad_up"; "nomad_request_response_time_total";
   "nomad_request_response_time_avg"; "nomad_request_count_current";
   "nomad_request_count_total"].

#[global] Instance Desc_eq_dec : EqDecision Desc.
Proof. solve_decision. Defined.

(** A document that spells out a struct under the five tags: numbers as
    numbers, a map as an object with one member per entry, a nil map as
    null. *)
Definition document_map (m : gomap) : json.value :=
  match m with
  | None => json.Null
  | Some m => json.Object (prod_map id (λ x, json.Number (Some x)) <$> map_to_list m)
  end.

Definition document (d : nomadHealth) : json.value :=
  json.Object
    [(tag F_UpTimeSec, json.Number (Some (UpTimeSec d)));
     (tag F_StatusCodeCount, document_map (StatusCodeCount d));
     (tag F_TotalStatusCodeCount, document_map (TotalStatusCodeCount d));
     (tag F_TotalResponseTimeSec, json.Number (Some (TotalResponseTimeSec d)));
     (tag F_AverageResponseTimeSec, json.Number (Some (AverageResponseTimeSec d)))].

(* ===================================================================== *)
(** ** Reading the labelled families after the update loops *)
(* ===================================================================== *)

Section labelled.

Variable mk : string → Gauge.

Lemma lookup_set_with i x (m : gmap string Gauge) k :
  set_with mk i x m !! k =
    if decide (i = k) then Some (Set_ x (default (mk i) (m !! i))) else m !! k.
Proof.
  unfold set_with. case_decide as Hik.
  - subst k. rewrite lookup_alter_eq.
    destruct (m !! i) as [g|] eqn:Hm.
    + by rewrite Hm.
    + by rewrite lookup_insert_eq.
  - rewrite lookup_alter_ne by done.
    destruct (m !! i); [done|]. by rewrite lookup_insert_ne.
Qed.

Lemma lookup_fold_set_with (data : gmap string float) (m : gmap string Gauge) k :
  map_fold (set_with mk) m data !! k =
    match data !! k with
    | Some nbr => Some (Set_ nbr (default (mk k) (m !! k)))
    | None => m !! k
    end.
Proof.
  revert k.
  apply (map_fold_weak_ind (λ r d, ∀ k, r !! k =
    match d !! k with
    | Some nbr => Some (Set_ nbr (default (mk k) (m !! k)))
    | None => m !! k
    end)); clear data.
  - intros k. by rewrite lookup_empty.
  - intros i x d r Hi IH k. rewrite lookup_set_with, lookup_insert.
    case_decide as Hik; [|apply IH].
    subst k. by rewrite IH, Hi.
Qed.

End labelled.

Lemma set_current_with : set_current = set_with mk_current.
Proof. reflexivity. Qed.

Lemma set_total_with : set_total = set_with mk_total.
Proof. reflexivity. Qed.

(** The current family after an update: a code of the payload holds the
    payload's number, every other code known before reads 0. *)
Lemma lookup_update_current data st k :
  metric_request_status_count_current (update data st) !! k =
    match go_range (StatusCodeCount data) !! k with
    | Some nbr =>
        Some (Set_ nbr (default (mk_current k)
                (Set_ 0%float <$> metric_request_status_count_current st !! k)))
    | None => Set_ 0%float <$> metric_request_status_count_current st !! k
    end.
Proof.
  unfold update; simpl. rewrite set_current_with, lookup_fold_set_with.
  by rewrite lookup_fmap.
Qed.

(** The cumulative family after an update: a code of the payload holds the
    payload's number, every other gauge is as it was. *)
Lemma lookup_update_total data st k :
  metric_request_status_count_total (update data st) !! k =
    match go_range (TotalStatusCodeCount data) !! k with
    | Some nbr =>
        Some (Set_ nbr (default (mk_total k)
                (metric_request_status_count_total st !! k)))
    | None => metric_request_status_count_total st !! k
    end.
Proof.
  unfold update; simpl. by rewrite set_total_with, lookup_fold_set_with.
Qed.

Lemma scrape_snapshot get st :
  scrape get st =
    match snapshot get with
    | Some data => (update data st, None)
    | None => (st, (scrape get st).2)
    end.
Proof.
  unfold scrape, snapshot. destruct get as [err|resp]; [done|].
  destruct ((200 <=? StatusCode resp)%Z && (StatusCode resp <? 300)%Z); simpl; [|done].
  by destruct (decode.Decode (Body resp)).
Qed.

Lemma scrape_nil_iff get st :
  (scrape get st).2 = None ↔ is_Some (snapshot get).
Proof.
  unfold scrape, snapshot. destruct get as [err|resp]; simpl.
  - split; [done|]. by intros [? ?].
  - destruct ((200 <=? StatusCode resp)%Z && (StatusCode resp <? 300)%Z); simpl.
    + destruct (decode.Decode (Body resp)); simpl; split; eauto; try done.
    + split; [done|]. by intros [? ?].
Qed.

Lemma scrape_error_state get st :
  is_Some (scrape get st).2 → (scrape get st).1 = st.
Proof.
  rewrite (scrape_snapshot get st). destruct (snapshot get); simpl; [|done].
  by intros [? ?].
Qed.

Lemma snapshot_GetOk resp data :
  (200 ≤ StatusCode resp ≤ 299)%Z →
  decode.Decode (Body resp) = Some data →
  snapshot (GetOk resp) = Some data.
Proof.
  intros [Hlo Hhi] Hd. unfold snapshot.
  assert ((200 <=? StatusCode resp)%Z && (StatusCode resp <? 300)%Z = true) as ->; [|done].
  apply andb_true_iff. split; [apply Z.leb_le | apply Z.ltb_lt]; lia.
Qed.

Lemma scrape_update get st data :
  snapshot get = Some data → scrape get st = (update data st, None).
Proof. intros H. by rewrite scrape_snapshot, H. Qed.

(** Closed facts about concrete sets and maps, by evaluation. *)
Ltac by_decide := apply (bool_decide_unpack _); vm_compute; reflexivity.

Lemma float_neq (x y : float64) :
  PrimFloat.eqb x x = true → PrimFloat.eqb x y = false → x ≠ y.
Proof. intros Hx Hxy ->. congruence. Qed.

(* ===================================================================== *)
(** ** A successful scrape *)
(* ===================================================================== *)

(** C2: for every response that [scrape] accepts (status in 200..299, body
    decoding to [data]), [scrape] returns nil and leaves the up/down flag
    at 1 and the uptime, total-response-time and average-response-time
    gauges at exactly the decoded [uptime_sec], [total_response_time_sec]
    and [average_response_time_sec]. *)
Theorem scrape_sets_singletons resp data st :
  (200 ≤ StatusCode resp ≤ 299)%Z →
  decode.Decode (Body resp) = Some data →
  (scrape (GetOk resp) st).2 = None
  ∧ value (nomad_up (scrape (GetOk resp) st).1) = 1%float
  ∧ value (metric_uptime (scrape (GetOk resp) st).1) = UpTimeSec data
  ∧ value (metric_request_response_time_total (scrape (GetOk resp) st).1)
    = TotalResponseTimeSec data
  ∧ value (metric_request_response_time_avg (scrape (GetOk resp) st).1)
    = AverageResponseTimeSec data.
Proof.
  intros Hcode Hdata.
  rewrite (scrape_update _ st data) by by apply snapshot_GetOk.
  by repeat split.
Qed.

Lemma Decode_body_full : decode.Decode (Some examples.body_full) = Some examples.data_full.
Proof. vm_compute. reflexivity. Qed.

Lemma scrape_sets_singletons_witness :
  (scrape (examples.ok examples.body_full) init).2 = None
  ∧ value (nomad_up (scrape (examples.ok examples.body_full) init).1) = 1%float
  ∧ value (metric_uptime (scrape (examples.ok examples.body_full) init).1) = 120.5%float
  ∧ value (metric_request_response_time_total (scrape (examples.ok examples.body_full) init).1)
    = 50%float
  ∧ value (metric_request_response_time_avg (scrape (examples.ok examples.body_full) init).1)
    = 0x1.999999999999ap-5%float.
Proof.
  apply (scrape_sets_singletons
           {| StatusCode := 200; Body := Some examples.body_full |}
           examples.data_full init).
  - simpl. lia.
  - vm_compute. reflexivity.
Defined.

(* ===================================================================== *)
(** ** The three checks of [scrape] and the two branches of [Collect] *)
(* ===================================================================== *)

(** C4: [scrape] returns an error exactly when the GET failed, or the
    status code is outside 200..299, or the body does not decode; the
    checks are made in this order (a failed GET is reported as such, a bad
    status is reported whatever the body is, a decoding error only under a
    good status); and whenever an error is returned no metric has been
    written. *)
Theorem scrape_three_checks get st :
  (is_Some (scrape get st).2 ↔
     (∃ err, get = GetErr err)
     ∨ (∃ resp, get = GetOk resp ∧ ¬ (200 ≤ StatusCode resp ≤ 299)%Z)
     ∨ (∃ resp, get = GetOk resp ∧ decode.Decode (Body resp) = None))
  ∧ (∀ err, get = GetErr err → (scrape get st).2 = Some (CantScrape err))
  ∧ (∀ resp, get = GetOk resp → ¬ (200 ≤ StatusCode resp ≤ 299)%Z →
       (scrape get st).2 = Some (CantScrapeStatus (StatusCode resp)))
  ∧ (∀ resp, get = GetOk resp → (200 ≤ StatusCode resp ≤ 299)%Z →
       decode.Decode (Body resp) = None →
       (scrape get st).2 = Some CantScrapeUnmarshal)
  ∧ (is_Some (scrape get st).2 → (scrape get st).1 = st).
Proof.
  split_and!; [| | | |apply scrape_error_state].
  - destruct get as [err|resp]; simpl.
    { split; eauto. }
    destruct (Z.leb_spec 200 (StatusCode resp)) as [Hlo|Hlo];
      destruct (Z.ltb_spec (StatusCode resp) 300) as [Hhi|Hhi]; simpl;
      try (split; [intros _; right; left; exists resp; split; [done|lia] | eauto]).
    destruct (decode.Decode (Body resp)) as [data|] eqn:Hd; simpl.
    + split; [by intros [? ?]|].
      intros [[? ?]|[(r & [= <-] & Hr)|(r & [= <-] & Hr)]]; [done|lia|congruence].
    + split; eauto 6.
  - by intros err ->.
  - intros resp -> Hcode. simpl.
    destruct (Z.leb_spec 200 (StatusCode resp));
      destruct (Z.ltb_spec (StatusCode resp) 300); simpl; try done. lia.
  - intros resp -> Hcode Hd. simpl.
    destruct (Z.leb_spec 200 (StatusCode resp));
      destruct (Z.ltb_spec (StatusCode resp) 300); simpl; try lia.
    by rewrite Hd.
Qed.

Lemma scrape_three_checks_witness :
  (scrape examples.get_refused init).2 = Some (CantScrape "connection refused")
  ∧ (scrape examples.get_503 init).2 = Some (CantScrapeStatus 503)
  ∧ (scrape examples.get_garbled init).2 = Some CantScrapeUnmarshal
  ∧ (scrape examples.get_garbled init).1 = init.
Proof.
  destruct (scrape_three_checks examples.get_refused init) as (_ & Hget & _).
  destruct (scrape_three_checks examples.get_503 init) as (_ & _ & Hstatus & _).
  destruct (scrape_three_checks examples.get_garbled init) as (_ & _ & _ & Hbody & Hstate).
  split_and!.
  - by apply Hget.
  - apply (Hstatus {| StatusCode := 503; Body := Some examples.body_full |});
      [reflexivity | simpl; lia].
  - apply (Hbody {| StatusCode := 200; Body := None |});
      [reflexivity | simpl; lia | reflexivity].
  - apply Hstate. by eexists.
Defined.

(** C3: when [scrape] fails, [Collect] sends one metric, the up/down flag
    reading 0, and leaves every other gauge and both maps as they were
    before the call; when [scrape] succeeds the flag reads 1 and the four
    singletons and every gauge of both maps are sent. *)
Theorem Collect_outcome get st :
  match (scrape get st).2 with
  | Some err =>
      sent (Collect get st) = [nomad_up (after (Collect get st))]
      ∧ nomad_up (after (Collect get st)) = Set_ 0%float (nomad_up st)
      ∧ metric_uptime (after (Collect get st)) = metric_uptime st
      ∧ metric_request_response_time_total (after (Collect get st))
        = metric_request_response_time_total st
      ∧ metric_request_response_time_avg (after (Collect get st))
        = metric_request_response_time_avg st
      ∧ metric_request_status_count_current (after (Collect get st))
        = metric_request_status_count_current st
      ∧ metric_request_status_count_total (after (Collect get st))
        = metric_request_status_count_total st
      ∧ logged (Collect get st) = Some err
  | None =>
      after (Collect get st) = (scrape get st).1
      ∧ value (nomad_up (after (Collect get st))) = 1%float
      ∧ sent (Collect get st) =
          ([nomad_up (after (Collect get st));
            metric_uptime (after (Collect get st));
            metric_request_response_time_total (after (Collect get st));
            metric_request_response_time_avg (after (Collect get st))]
           ++ (map_to_list (metric_request_status_count_current (after (Collect get st)))).*2
           ++ (map_to_list (metric_request_status_count_total (after (Collect get st)))).*2)%list
      ∧ (∀ k g, metric_request_status_count_current (after (Collect get st)) !! k = Some g →
                g ∈ sent (Collect get st))
      ∧ (∀ k g, metric_request_status_count_total (after (Collect get st)) !! k = Some g →
                g ∈ sent (Collect get st))
      ∧ length (sent (Collect get st)) =
          4 + size (metric_request_status_count_current (after (Collect get st)))
            + size (metric_request_status_count_total (after (Collect get st)))
  end.
Proof.
  unfold Collect.
  destruct (scrape get st) as [st' [err|]] eqn:Hs; simpl.
  - assert (st' = st) as ->.
    { change st' with (st', Some err).1. rewrite <-Hs.
      apply scrape_error_state. rewrite Hs. by eexists. }
    by repeat split.
  - assert (value (nomad_up st') = 1%float) as Hup.
    { destruct (proj1 (scrape_nil_iff get st)) as [data Hdata]; [by rewrite Hs|].
      rewrite (scrape_update get st data Hdata) in Hs. by simplify_eq. }
    split_and!; try done.
    + intros k g Hk. rewrite !elem_of_cons, elem_of_app. do 4 right. left.
      apply list_elem_of_fmap.
      exists (k, g). split; [done|]. by apply elem_of_map_to_list.
    + intros k g Hk. rewrite !elem_of_cons, elem_of_app. do 4 right. right.
      apply list_elem_of_fmap.
      exists (k, g). split; [done|]. by apply elem_of_map_to_list.
    + rewrite !length_app, !length_fmap, !length_map_to_list. lia.
Qed.

Lemma Collect_outcome_witness :
  sent (Collect examples.get_503 (scrape (examples.ok examples.body_full) init).1)
  = [Set_ 0%float (nomad_up (scrape (examples.ok examples.body_full) init).1)]
  ∧ metric_uptime (after (Collect examples.get_503 (scrape (examples.ok examples.body_full) init).1))
    = metric_uptime (scrape (examples.ok examples.body_full) init).1
  ∧ length (sent (Collect (examples.ok examples.body_full) init)) = 7.
Proof.
  destruct (Collect_outcome examples.get_503
              (scrape (examples.ok examples.body_full) init).1)
    as (Hsent & Hup & Huptime & _).
  destruct (Collect_outcome (examples.ok examples.body_full) init)
    as (_ & _ & _ & _ & _ & Hlen).
  split_and!.
  - by rewrite Hsent, Hup.
  - exact Huptime.
  - rewrite Hlen. vm_compute. reflexivity.
Defined.

(* ===================================================================== *)
(** ** The up/down flag *)
(* ===================================================================== *)

Lemma scrape_refusal get st :
  snapshot get = None → ∃ err, scrape get st = (st, Some err).
Proof.
  unfold snapshot, scrape. destruct get as [err|resp]; [by eexists|].
  destruct ((200 <=? StatusCode resp)%Z && (StatusCode resp <? 300)%Z); simpl.
  - intros ->. by eexists.
  - by eexists.
Qed.

Lemma exec_flag st s c :
  value (nomad_up st) = flag_of s →
  value (nomad_up (exec st c)) = flag_of (next s c).
Proof.
  intros Hs. destruct c as [|get]; [done|]. simpl. unfold Collect.
  destruct (snapshot get) as [data|] eqn:Hsn.
  - by rewrite (scrape_update get st data Hsn).
  - destruct (scrape_refusal get st Hsn) as [err ->]. done.
Qed.

Lemma run_flag calls : ∀ st s,
  value (nomad_up st) = flag_of s →
  value (nomad_up (run st calls)) = flag_of (foldl next s calls).
Proof.
  induction calls as [|c calls IH]; intros st s Hs; [done|].
  simpl. apply IH. by apply exec_flag.
Qed.

(** C5: the up/down flag is a machine with the two states Up (1) and Down
    (0): it starts Down; a successful [scrape] leaves it Up; a [Collect]
    whose [scrape] failed leaves it Down; and along every run of the
    process the flag is what these moves, and no others, make of it. *)
Theorem up_flag_machine :
  value (nomad_up init) = flag_of Down
  ∧ (∀ get st, (scrape get st).2 = None →
       value (nomad_up (scrape get st).1) = flag_of Up)
  ∧ (∀ get st, is_Some (scrape get st).2 →
       value (nomad_up (after (Collect get st))) = flag_of Down)
  ∧ (∀ calls, value (nomad_up (run init calls)) = flag_of (foldl next Down calls)).
Proof.
  split_and!.
  - done.
  - intros get st Hnil. apply scrape_nil_iff in Hnil as [data Hdata].
    by rewrite (scrape_update get st data Hdata).
  - intros get st [err Herr]. unfold Collect.
    destruct (scrape get st) as [st' [e|]]; simplify_eq/=. done.
  - intros calls. by apply run_flag.
Qed.

Lemma up_flag_machine_witness :
  value (nomad_up (scrape (examples.ok examples.body_full) init).1) = 1%float
  ∧ value (nomad_up (after (Collect examples.get_503
                              (scrape (examples.ok examples.body_full) init).1))) = 0%float
  ∧ value (nomad_up (run init [CallCollect examples.get_refused;
                               CallCollect (examples.ok examples.body_full);
                               CallDescribe])) = 1%float.
Proof.
  destruct up_flag_machine as (_ & Hup & Hdown & Hrun).
  split_and!.
  - apply Hup. vm_compute. reflexivity.
  - apply Hdown. vm_compute. by eexists.
  - rewrite Hrun. vm_compute. reflexivity.
Defined.

(** C9: in every state the process can reach, the up/down flag holds 0
    or 1. *)
Theorem up_flag_binary st :
  reachable st → value (nomad_up st) = 0%float ∨ value (nomad_up st) = 1%float.
Proof.
  intros Hst.
  assert (∃ s, value (nomad_up st) = flag_of s) as [s Hs].
  { induction Hst as [|st c _ [s Hs]].
    - by exists Down.
    - exists (next s c). by apply exec_flag. }
  rewrite Hs. destruct s; auto.
Qed.

Lemma up_flag_binary_witness :
  value (nomad_up (exec (exec init (CallCollect (examples.ok examples.body_full)))
                        (CallCollect examples.get_503))) = 0%float
  ∨ value (nomad_up (exec (exec init (CallCollect (examples.ok examples.body_full)))
                          (CallCollect examples.get_503))) = 1%float.
Proof.
  apply (up_flag_binary
           (exec (exec init (CallCollect (examples.ok examples.body_full)))
                 (CallCollect examples.get_503))).
  apply reachable_exec, reachable_exec, reachable_init.
Defined.

(* ===================================================================== *)
(** ** Scraping the same payload twice *)
(* ===================================================================== *)

Lemma metrics_eq (a b : metrics) :
  nomad_up a = nomad_up b →
  metric_uptime a = metric_uptime b →
  metric_request_response_time_total a = metric_request_response_time_total b →
  metric_request_response_time_avg a = metric_request_response_time_avg b →
  metric_request_status_count_current a = metric_request_status_count_current b →
  metric_request_status_count_total a = metric_request_status_count_total b →
  a = b.
Proof. destruct a, b; simpl; congruence. Qed.

Lemma update_idempotent data st :
  update data (update data st) = update data st.
Proof.
  assert (metric_request_status_count_current (update data (update data st))
          = metric_request_status_count_current (update data st)) as Hcur.
  { apply map_eq. intros k. rewrite (lookup_update_current data (update data st)).
    rewrite !lookup_update_current.
    destruct (go_range (StatusCodeCount data) !! k) as [nbr|]; simpl; [done|].
    by destruct (metric_request_status_count_current st !! k). }
  assert (metric_request_status_count_total (update data (update data st))
          = metric_request_status_count_total (update data st)) as Htot.
  { apply map_eq. intros k. rewrite (lookup_update_total data (update data st)).
    rewrite !lookup_update_total.
    by destruct (go_range (TotalStatusCodeCount data) !! k) as [nbr|]. }
  by apply metrics_eq.
Qed.

(** C6: scraping twice in a row with the same response is idempotent: from
    every state, the second [scrape] returns what the first returned and
    leaves every gauge (flag, singletons, both families, descriptors
    included) as the first left it. *)
Theorem scrape_idempotent get st :
  scrape get (scrape get st).1 = scrape get st.
Proof.
  destruct (snapshot get) as [data|] eqn:Hsn.
  - rewrite !(scrape_update get _ data Hsn). simpl.
    by rewrite update_idempotent.
  - destruct (scrape_refusal get st Hsn) as [err Herr]. by rewrite Herr.
Qed.

(* ===================================================================== *)
(** ** Status codes that leave the payload *)
(* ===================================================================== *)

Lemma current_absent data st k :
  go_range (StatusCodeCount data) !! k = None →
  metric_request_status_count_current (update data st) !! k
  = Set_ 0%float <$> metric_request_status_count_current st !! k.
Proof. intros H. by rewrite lookup_update_current, H. Qed.

Lemma total_absent data st k :
  go_range (TotalStatusCodeCount data) !! k = None →
  metric_request_status_count_total (update data st) !! k
  = metric_request_status_count_total st !! k.
Proof. intros H. by rewrite lookup_update_total, H. Qed.

Lemma current_kept data st k :
  is_Some (metric_request_status_count_current st !! k) →
  is_Some (metric_request_status_count_current (update data st) !! k).
Proof.
  intros [g Hg]. rewrite lookup_update_current, Hg.
  destruct (go_range (StatusCodeCount data) !! k); by eexists.
Qed.

Lemma total_kept data st k :
  is_Some (metric_request_status_count_total st !! k) →
  is_Some (metric_request_status_count_total (update data st) !! k).
Proof.
  intros [g Hg]. rewrite lookup_update_total, Hg.
  destruct (go_range (TotalStatusCodeCount data) !! k); by eexists.
Qed.

Lemma current_seen data st k :
  is_Some (go_range (StatusCodeCount data) !! k) →
  is_Some (metric_request_status_count_current (update data st) !! k).
Proof. intros [x Hx]. rewrite lookup_update_current, Hx. by eexists. Qed.

Lemma total_seen data st k :
  is_Some (go_range (TotalStatusCodeCount data) !! k) →
  is_Some (metric_request_status_count_total (update data st) !! k).
Proof. intros [x Hx]. rewrite lookup_update_total, Hx. by eexists. Qed.

Lemma exec_keeps st c k :
  (is_Some (metric_request_status_count_current st !! k) →
   is_Some (metric_request_status_count_current (exec st c) !! k))
  ∧ (is_Some (metric_request_status_count_total st !! k) →
     is_Some (metric_request_status_count_total (exec st c) !! k)).
Proof.
  destruct c as [|get]; [done|]. simpl. unfold Collect.
  destruct (snapshot get) as [data|] eqn:Hsn.
  - rewrite (scrape_update get st data Hsn). simpl.
    split; [apply current_kept | apply total_kept].
  - destruct (scrape_refusal get st Hsn) as [err ->]. done.
Qed.

Lemma run_keeps calls : ∀ st k,
  (is_Some (metric_request_status_count_current st !! k) →
   is_Some (metric_request_status_count_current (run st calls) !! k))
  ∧ (is_Some (metric_request_status_count_total st !! k) →
     is_Some (metric_request_status_count_total (run st calls) !! k)).
Proof.
  induction calls as [|c calls IH]; intros st k; [done|].
  simpl. destruct (exec_keeps st c k) as [Hc Ht].
  destruct (IH (exec st c) k) as [IHc IHt]. split; auto.
Qed.

(** C1 (amended): take two successful scrapes in a row whose current-count
    mappings are over disjoint sets of codes S1 and S2.  After the second,
    every code of S1∖S2 reads exactly 0 in the current family; and every
    such code that was in the first scrape's cumulative mapping and is not
    in the second scrape's cumulative mapping keeps, in the cumulative
    family, the gauge it had after the first scrape. *)
Theorem absent_code_zeroed_total_kept st get1 get2 d1 d2 k :
  snapshot get1 = Some d1 →
  snapshot get2 = Some d2 →
  dom (go_range (StatusCodeCount d1)) ## dom (go_range (StatusCodeCount d2)) →
  k ∈ dom (go_range (StatusCodeCount d1)) ∖ dom (go_range (StatusCodeCount d2)) →
  value <$> metric_request_status_count_current (scrape get2 (scrape get1 st).1).1 !! k
  = Some 0%float
  ∧ (k ∈ dom (go_range (TotalStatusCodeCount d1)) →
     k ∉ dom (go_range (TotalStatusCodeCount d2)) →
     value <$> metric_request_status_count_total (scrape get1 st).1 !! k
     = go_range (TotalStatusCodeCount d1) !! k
     ∧ metric_request_status_count_total (scrape get2 (scrape get1 st).1).1 !! k
       = metric_request_status_count_total (scrape get1 st).1 !! k).
Proof.
  intros H1 H2 _ [Hin Hout]%elem_of_difference.
  rewrite (scrape_update get1 st d1 H1). cbn [fst].
  rewrite (scrape_update get2 _ d2 H2). cbn [fst].
  apply elem_of_dom in Hin. apply not_elem_of_dom in Hout.
  split.
  - rewrite (current_absent d2) by done.
    destruct (current_seen d1 st k Hin) as [g ->]. done.
  - intros [x Hx]%elem_of_dom Hno%not_elem_of_dom. split.
    + by rewrite lookup_update_total, Hx.
    + by apply total_absent.
Qed.

Lemma Decode_body_first : decode.Decode (Some examples.body_first) = Some examples.data_first.
Proof. vm_compute. reflexivity. Qed.

Lemma Decode_body_second : decode.Decode (Some examples.body_second) = Some examples.data_second.
Proof. vm_compute. reflexivity. Qed.

Lemma Decode_body_next : decode.Decode (Some examples.body_next) = Some examples.data_next.
Proof. vm_compute. reflexivity. Qed.

Lemma absent_code_zeroed_total_kept_witness :
  value <$> metric_request_status_count_current
              (scrape (examples.ok examples.body_next)
                      (scrape (examples.ok examples.body_first) init).1).1 !! "500"
  = Some 0%float
  ∧ metric_request_status_count_total
      (scrape (examples.ok examples.body_next)
              (scrape (examples.ok examples.body_first) init).1).1 !! "500"
    = metric_request_status_count_total
        (scrape (examples.ok examples.body_first) init).1 !! "500".
Proof.
  destruct (absent_code_zeroed_total_kept init
              (examples.ok examples.body_first) (examples.ok examples.body_next)
              examples.data_first examples.data_next "500") as [Hcur Htot].
  - vm_compute. reflexivity.
  - vm_compute. reflexivity.
  - by_decide.
  - by_decide.
  - split; [exact Hcur|]. apply Htot.
    + by_decide.
    + by_decide.
Defined.

(** C1, as stated, fails: the current counts of the two scrapes are over
    the disjoint sets {500} and {200}, and 500 was in the first cumulative
    mapping, yet its cumulative gauge moves from 5 to 6 because the second
    cumulative mapping names it again. *)
Lemma cumulative_moves_counterexample :
  snapshot (examples.ok examples.body_first) = Some examples.data_first
  ∧ snapshot (examples.ok examples.body_second) = Some examples.data_second
  ∧ dom (go_range (StatusCodeCount examples.data_first))
    ## dom (go_range (StatusCodeCount examples.data_second))
  ∧ "500" ∈ dom (go_range (StatusCodeCount examples.data_first))
            ∖ dom (go_range (StatusCodeCount examples.data_second))
  ∧ "500" ∈ dom (go_range (TotalStatusCodeCount examples.data_first))
  ∧ value <$> metric_request_status_count_total
                (scrape (examples.ok examples.body_first) init).1 !! "500"
    = Some 5%float
  ∧ value <$> metric_request_status_count_total
                (scrape (examples.ok examples.body_second)
                        (scrape (examples.ok examples.body_first) init).1).1 !! "500"
    = Some 6%float
  ∧ 6%float ≠ 5%float.
Proof.
  split_and!; try (vm_compute; reflexivity);
    try (by_decide).
  by apply float_neq.
Qed.

(* ===================================================================== *)
(** ** The labelled families only grow *)
(* ===================================================================== *)

(** C7 (amended): along every run, a status code that has a gauge in the
    current family or in the cumulative family still has one afterwards.
    After a successful scrape whose current mapping lacks the code, its
    current gauge reads 0; after a successful scrape whose cumulative
    mapping lacks the code, its cumulative gauge is as it was before. *)
Theorem families_never_shrink st calls k :
  (is_Some (metric_request_status_count_current st !! k) →
   is_Some (metric_request_status_count_current (run st calls) !! k))
  ∧ (is_Some (metric_request_status_count_total st !! k) →
     is_Some (metric_request_status_count_total (run st calls) !! k))
  ∧ (∀ get data,
       snapshot get = Some data →
       is_Some (metric_request_status_count_current st !! k) →
       k ∉ dom (go_range (StatusCodeCount data)) →
       value <$> metric_request_status_count_current (scrape get st).1 !! k
       = Some 0%float)
  ∧ (∀ get data,
       snapshot get = Some data →
       k ∉ dom (go_range (TotalStatusCodeCount data)) →
       metric_request_status_count_total (scrape get st).1 !! k
       = metric_request_status_count_total st !! k).
Proof.
  destruct (run_keeps calls st k) as [Hc Ht].
  split_and!; [done|done| |].
  - intros get data Hsn [g Hg] Hno%not_elem_of_dom.
    rewrite (scrape_update get st data Hsn). cbn [fst].
    by rewrite (current_absent data) by done; rewrite Hg.
  - intros get data Hsn Hno%not_elem_of_dom.
    rewrite (scrape_update get st data Hsn). cbn [fst].
    by apply total_absent.
Qed.

Lemma families_never_shrink_witness :
  is_Some (metric_request_status_count_current
             (run (scrape (examples.ok examples.body_full) init).1
                  [CallCollect examples.get_503; CallDescribe;
                   CallCollect (examples.ok examples.body_next)]) !! "500")
  ∧ value <$> metric_request_status_count_current
                (scrape (examples.ok examples.body_next)
                        (scrape (examples.ok examples.body_full) init).1).1 !! "500"
    = Some 0%float
  ∧ metric_request_status_count_total
      (scrape (examples.ok examples.body_next)
              (scrape (examples.ok examples.body_full) init).1).1 !! "200"
    = metric_request_status_count_total
        (scrape (examples.ok examples.body_full) init).1 !! "200".
Proof.
  destruct (families_never_shrink
              (scrape (examples.ok examples.body_full) init).1
              [CallCollect examples.get_503; CallDescribe;
               CallCollect (examples.ok examples.body_next)] "500")
    as (Hkeep & _ & Hzero & _).
  destruct (families_never_shrink
              (scrape (examples.ok examples.body_full) init).1 [] "200")
    as (_ & _ & _ & Hsame).
  split_and!.
  - apply Hkeep. vm_compute. by eexists.
  - apply (Hzero _ examples.data_next).
    + vm_compute. reflexivity.
    + vm_compute. by eexists.
    + by_decide.
  - apply (Hsame _ examples.data_next).
    + vm_compute. reflexivity.
    + by_decide.
Defined.

(** C7, as stated, fails for the cumulative family: 200 leaves the
    cumulative mapping in the second payload, and its cumulative gauge
    stays at 1000, not at 0. *)
Lemma cumulative_not_zeroed_counterexample :
  snapshot (examples.ok examples.body_full) = Some examples.data_full
  ∧ snapshot (examples.ok examples.body_next) = Some examples.data_next
  ∧ "200" ∈ dom (go_range (TotalStatusCodeCount examples.data_full))
  ∧ ("200" ∉ dom (go_range (TotalStatusCodeCount examples.data_next)))
  ∧ value <$> metric_request_status_count_total
                (scrape (examples.ok examples.body_next)
                        (scrape (examples.ok examples.body_full) init).1).1 !! "200"
    = Some 1000%float
  ∧ 1000%float ≠ 0%float.
Proof.
  split_and!; try (vm_compute; reflexivity); try by_decide.
  by apply float_neq.
Qed.

(* ===================================================================== *)
(** ** Descriptors of the gauges created on first sight *)
(* ===================================================================== *)

(** C10: whenever a scrape creates the current-count gauge of a status
    code (the code is in the payload's current mapping and has no gauge
    in the current family yet) and whenever a scrape, the same or any
    other, creates its cumulative-count gauge (likewise for the cumulative
    mapping and family), the two gauges carry the same help string,
    "Number of request handled by Nomad", and the same single label
    [statusCode] set to the code; their descriptors differ in the metric
    name only, [nomad_request_count_current] against
    [nomad_request_count_total]. *)
Theorem created_descriptors st1 get1 data1 st2 get2 data2 k x y :
  snapshot get1 = Some data1 →
  metric_request_status_count_current st1 !! k = None →
  go_range (StatusCodeCount data1) !! k = Some x →
  snapshot get2 = Some data2 →
  metric_request_status_count_total st2 !! k = None →
  go_range (TotalStatusCodeCount data2) !! k = Some y →
  ∃ gc gt,
    metric_request_status_count_current (scrape get1 st1).1 !! k = Some gc
    ∧ metric_request_status_count_total (scrape get2 st2).1 !! k = Some gt
    ∧ help (desc gc) = "Number of request handled by Nomad"
    ∧ help (desc gt) = "Number of request handled by Nomad"
    ∧ constLabels (desc gc) = {[ "statusCode" := k ]}
    ∧ constLabels (desc gt) = {[ "statusCode" := k ]}
    ∧ fqName (desc gc) = "nomad_request_count_current"
    ∧ fqName (desc gt) = "nomad_request_count_total"
    ∧ fqName (desc gc) ≠ fqName (desc gt)
    ∧ desc gt = {| fqName := fqName (desc gt);
                   help := help (desc gc);
                   constLabels := constLabels (desc gc) |}.
Proof.
  intros Hsn1 Hc Hx Hsn2 Ht Hy.
  exists (Set_ x (mk_current k)), (Set_ y (mk_total k)).
  rewrite (scrape_update get1 st1 data1 Hsn1), (scrape_update get2 st2 data2 Hsn2).
  cbn [fst].
  split_and!; try done.
  - by rewrite lookup_update_current, Hx, Hc.
  - by rewrite lookup_update_total, Hy, Ht.
Qed.

Lemma created_descriptors_witness :
  ∃ gc gt,
    metric_request_status_count_current
      (scrape (examples.ok examples.body_full) init).1 !! "500" = Some gc
    ∧ metric_request_status_count_total
        (scrape (examples.ok examples.body_second)
                (scrape (examples.ok examples.body_full) init).1).1 !! "500" = Some gt
    ∧ help (desc gc) = "Number of request handled by Nomad"
    ∧ help (desc gt) = "Number of request handled by Nomad"
    ∧ constLabels (desc gc) = {[ "statusCode" := "500" ]}
    ∧ constLabels (desc gt) = {[ "statusCode" := "500" ]}
    ∧ fqName (desc gc) = "nomad_request_count_current"
    ∧ fqName (desc gt) = "nomad_request_count_total"
    ∧ fqName (desc gc) ≠ fqName (desc gt)
    ∧ desc gt = {| fqName := fqName (desc gt);
                   help := help (desc gc);
                   constLabels := constLabels (desc gc) |}.
Proof.
  apply (created_descriptors
           init (examples.ok examples.body_full) examples.data_full
           (scrape (examples.ok examples.body_full) init).1
           (examples.ok examples.body_second) examples.data_second
           "500" 1%float 6%float).
  - vm_compute. reflexivity.
  - reflexivity.
  - vm_compute. reflexivity.
  - vm_compute. reflexivity.
  - vm_compute. reflexivity.
  - vm_compute. reflexivity.
Defined.

(* ===================================================================== *)
(** ** Decoding: which members of the document count *)
(* ===================================================================== *)

Lemma tag_eqb_fold f k :
  String.eqb (tag f) k = true → json.equalFoldRight (tag f) k = true.
Proof.
  intros <-%String.eqb_eq. destruct f; vm_compute; reflexivity.
Qed.

Lemma lookupField_Some fs : ∀ acc k f,
  decode.lookupField fs acc k = Some f →
  acc = Some f ∨ json.equalFoldRight (tag f) k = true.
Proof.
  induction fs as [|ff fs IH]; intros acc k f; cbn [decode.lookupField]; [auto|].
  destruct (String.eqb (tag ff) k) eqn:Heq.
  - intros [= <-]. right. by apply tag_eqb_fold.
  - intros [Hacc|Hfold]%IH; [|by right].
    destruct acc as [a|]; [by left|].
    destruct (json.equalFoldRight (tag ff) k) eqn:Hff; [|done].
    right. by simplify_eq.
Qed.

Lemma lookupField_None fs k :
  (∀ f, json.equalFoldRight (tag f) k = false) →
  decode.lookupField fs None k = None.
Proof.
  intros Hno. induction fs as [|ff fs IH]; cbn [decode.lookupField]; [done|].
  destruct (String.eqb (tag ff) k) eqn:Heq.
  - apply tag_eqb_fold in Heq. by rewrite Hno in Heq.
  - by rewrite Hno.
Qed.

Lemma fieldOf_fold k f :
  decode.fieldOf k = Some f → json.equalFoldRight (tag f) k = true.
Proof. intros [?|?]%lookupField_Some; done. Qed.

Lemma storeField_other f f' v d d' :
  f ≠ f' → decode.storeField f v d = Some d' →
  field_value f' d' = field_value f' d.
Proof.
  intros Hne Hst.
  destruct f, f'; try done; unfold decode.storeField in Hst;
    simplify_option_eq; reflexivity.
Qed.

Lemma storeObject_absent f members : ∀ d d',
  (∀ k v, (k, v) ∈ members → json.equalFoldRight (tag f) k = false) →
  decode.storeObject members d = Some d' →
  field_value f d' = field_value f d.
Proof.
  induction members as [|[k v] rest IH]; intros d d' Hno; cbn [decode.storeObject].
  { by intros [= <-]. }
  assert (∀ k' v', (k', v') ∈ rest → json.equalFoldRight (tag f) k' = false) as Hrest.
  { intros k' v' Hin. apply (Hno k' v'). apply elem_of_cons. by right. }
  destruct (decode.fieldOf k) as [f'|] eqn:Hf; [|by apply IH].
  destruct (decode.storeField f' v d) as [d1|] eqn:Hst; [|done].
  intros Hd'. rewrite (IH d1 d' Hrest Hd').
  apply (storeField_other f' f v); [|done].
  intros ->. apply fieldOf_fold in Hf.
  rewrite (Hno k v) in Hf; [done|]. apply elem_of_cons. by left.
Qed.

Lemma storeObject_skip l1 k v l2 : ∀ d,
  decode.fieldOf k = None →
  decode.storeObject (l1 ++ (k, v) :: l2) d = decode.storeObject (l1 ++ l2) d.
Proof.
  induction l1 as [|[k' v'] l1 IH]; intros d Hk; cbn [app decode.storeObject].
  - by rewrite Hk.
  - destruct (decode.fieldOf k'); [|by apply IH].
    destruct (decode.storeField f v' d); [by apply IH|done].
Qed.

Lemma storeMembers_is_Some members : ∀ m m0,
  is_Some (decode.storeMembers members m) → is_Some (decode.storeMembers members m0).
Proof.
  induction members as [|[k v] rest IH]; intros m m0; cbn [decode.storeMembers].
  - by eexists.
  - destruct (decode.storeFloat v 0%float); [apply IH|done].
Qed.

Lemma storeField_is_Some f v d d0 :
  is_Some (decode.storeField f v d) → is_Some (decode.storeField f v d0).
Proof.
  destruct f, v as [| |[x|]| | |members]; unfold decode.storeField; simpl;
    try (intros _; by eexists); try (by intros [? ?]).
  - destruct (decode.storeMembers members (go_range (StatusCodeCount d))) as [m|] eqn:Hm;
      simpl; [intros _|by intros [? ?]].
    destruct (storeMembers_is_Some members _ (go_range (StatusCodeCount d0))
                (mk_is_Some _ _ Hm)) as [m0 ->].
    by eexists.
  - destruct (decode.storeMembers members (go_range (TotalStatusCodeCount d))) as [m|] eqn:Hm;
      simpl; [intros _|by intros [? ?]].
    destruct (storeMembers_is_Some members _ (go_range (TotalStatusCodeCount d0))
                (mk_is_Some _ _ Hm)) as [m0 ->].
    by eexists.
Qed.

Lemma storeObject_is_Some members : ∀ d,
  is_Some (decode.storeObject members d) ↔ Forall member_ok members.
Proof.
  induction members as [|[k v] rest IH]; intros d; cbn [decode.storeObject].
  { split; [constructor|by eexists]. }
  rewrite Forall_cons. unfold member_ok at 1. cbn [fst snd].
  destruct (decode.fieldOf k) as [f|]; [|rewrite IH; tauto].
  destruct (decode.storeField f v d) as [d1|] eqn:Hst.
  - rewrite IH. split; [|tauto]. intros Hrest. split; [|done].
    apply (storeField_is_Some f v d). by rewrite Hst.
  - split; [by intros [? ?]|]. intros [Hok _].
    apply (storeField_is_Some f v _ d) in Hok. rewrite Hst in Hok.
    by destruct Hok.
Qed.

Lemma depth_Object_bound members n :
  (json.depth (json.Object members) ≤ N.succ n)%N
  ↔ Forall (λ kv : string * json.value, (json.depth kv.2 ≤ n)%N) members.
Proof.
  cbn [json.depth]. rewrite <-N.succ_le_mono.
  induction members as [|[k v] rest IH]; cbn [fold_right].
  - split; [constructor|]. intros _. apply N.le_0_l.
  - rewrite Forall_cons, <-IH, N.max_lub_iff. done.
Qed.

Lemma maxNestingDepth_succ : json.maxNestingDepth = N.succ 9999.
Proof. reflexivity. Qed.

Lemma Decode_within v :
  (json.depth v ≤ json.maxNestingDepth)%N →
  decode.Decode (Some v)
  = match v with
    | json.Null => Some zero_nomadHealth
    | json.Object members => decode.storeObject members zero_nomadHealth
    | _ => None
    end.
Proof.
  intros Hd. unfold decode.Decode.
  destruct (N.ltb_spec json.maxNestingDepth (json.depth v)) as [Hlt|_]; [lia|done].
Qed.

Lemma Decode_too_deep v :
  (json.maxNestingDepth < json.depth v)%N → decode.Decode (Some v) = None.
Proof.
  intros Hd. unfold decode.Decode.
  destruct (N.ltb_spec json.maxNestingDepth (json.depth v)) as [_|Hle]; [done|lia].
Qed.

Lemma Decode_is_Some_depth v :
  is_Some (decode.Decode (Some v)) → (json.depth v ≤ json.maxNestingDepth)%N.
Proof.
  intros Hs. destruct (N.le_gt_cases (json.depth v) json.maxNestingDepth) as [|Hgt]; [done|].
  rewrite (Decode_too_deep v Hgt) in Hs. by destruct Hs.
Qed.

(** C8 (amended): decoding requires no field.  The empty object decodes to
    the zero struct, and a document within the decoder's nesting limit
    decodes exactly when each member it does have can be stored.  A field
    that no key of the document matches, exactly or up to case folding, is
    left at its zero value; and a member whose key matches none of the
    five tags, exactly or up to case folding, and whose value is nested
    less deep than the limit, is ignored: the document decodes as it does
    without that member, whatever the member's value. *)
Theorem Decode_fields_optional members :
  decode.Decode (Some (json.Object [])) = Some zero_nomadHealth
  ∧ (is_Some (decode.Decode (Some (json.Object members)))
     ↔ (json.depth (json.Object members) ≤ json.maxNestingDepth)%N
       ∧ Forall member_ok members)
  ∧ (∀ f d,
       (∀ k v, (k, v) ∈ members → json.equalFoldRight (tag f) k = false) →
       decode.Decode (Some (json.Object members)) = Some d →
       field_value f d = field_value f zero_nomadHealth)
  ∧ (∀ l1 k v l2,
       members = (l1 ++ (k, v) :: l2)%list →
       (∀ f, json.equalFoldRight (tag f) k = false) →
       (json.depth v < json.maxNestingDepth)%N →
       decode.Decode (Some (json.Object members))
       = decode.Decode (Some (json.Object (l1 ++ l2)%list))).
Proof.
  split_and!.
  - reflexivity.
  - split.
    + intros Hs. pose proof (Decode_is_Some_depth _ Hs) as Hd. split; [done|].
      rewrite (Decode_within _ Hd) in Hs. by apply storeObject_is_Some in Hs.
    + intros [Hd Hok]. rewrite (Decode_within _ Hd). by apply storeObject_is_Some.
  - intros f d Hno Hd.
    assert (is_Some (decode.Decode (Some (json.Object members)))) as Hs
      by by rewrite Hd.
    rewrite (Decode_within _ (Decode_is_Some_depth _ Hs)) in Hd.
    by apply (storeObject_absent f members).
  - intros l1 k v l2 -> Hno Hv.
    assert ((json.depth (json.Object (l1 ++ (k, v) :: l2)) ≤ json.maxNestingDepth)%N
            ↔ (json.depth (json.Object (l1 ++ l2)) ≤ json.maxNestingDepth)%N) as Hiff.
    { rewrite maxNestingDepth_succ, !depth_Object_bound, !Forall_app, Forall_cons.
      cbn [snd]. rewrite maxNestingDepth_succ in Hv. apply N.lt_succ_r in Hv. tauto. }
    destruct (N.le_gt_cases (json.depth (json.Object (l1 ++ l2))) json.maxNestingDepth)
      as [Hle|Hgt].
    + rewrite (Decode_within _ Hle), (Decode_within _ (proj2 Hiff Hle)).
      apply storeObject_skip. by apply lookupField_None.
    + rewrite (Decode_too_deep _ Hgt). apply Decode_too_deep.
      apply N.lt_nge. intros Hle. apply Hiff in Hle. lia.
Qed.

Lemma Decode_fields_optional_witness :
  field_value F_StatusCodeCount
    {| UpTimeSec := 120.5%float; StatusCodeCount := None; TotalStatusCodeCount := None;
       TotalResponseTimeSec := 0%float; AverageResponseTimeSec := 0%float |}
  = inr None
  ∧ decode.Decode (Some examples.body_extra)
    = decode.Decode (Some (json.Object [("uptime", json.Str "2m0.5s");
                                        ("uptime_sec", examples.num 120.5%float)])).
Proof.
  destruct (Decode_fields_optional
              [("pid", examples.num 42%float); ("uptime", json.Str "2m0.5s");
               ("uptime_sec", examples.num 120.5%float)])
    as (_ & _ & Habsent & Hskip).
  split.
  - apply (Habsent F_StatusCodeCount).
    + intros k v Hin. repeat (apply elem_of_cons in Hin as [[= -> ->]|Hin]);
        [reflexivity..|]. by apply elem_of_nil in Hin.
    + vm_compute. reflexivity.
  - apply (Hskip [] "pid" (examples.num 42%float)); [reflexivity| |reflexivity].
    intros f. destruct f; reflexivity.
Defined.

(** C8, as stated, fails on keys that differ from a tag by case: the key
    UPTIME_SEC is none of the five names, yet a string under it makes the
    decoding fail, and a number under it lands in [UpTimeSec] although
    [uptime_sec] is absent from the document.  It also fails on a member
    nested deeper than the decoder scans: under the key pid, which matches
    no tag, such a value fails a document that decodes without it. *)
Lemma case_variant_key_counterexample :
  Forall (λ f, tag f ≠ "UPTIME_SEC") fields
  ∧ decode.Decode (Some examples.body_upper_str) = None
  ∧ decode.Decode (Some (json.Object [])) = Some zero_nomadHealth
  ∧ UpTimeSec <$> decode.Decode (Some examples.body_upper_num) = Some 5%float
  ∧ 5%float ≠ UpTimeSec zero_nomadHealth
  ∧ Forall (λ f, json.equalFoldRight (tag f) "pid" = false) fields
  ∧ decode.Decode (Some examples.body_deep) = None
  ∧ UpTimeSec <$> decode.Decode (Some examples.body_shallow) = Some 3%float.
Proof.
  split_and!; try (vm_compute; reflexivity).
  - repeat constructor; discriminate.
  - by apply float_neq.
  - repeat constructor.
Qed.

(* ===================================================================== *)
(** ** What a successful scrape leaves in the two families *)
(* ===================================================================== *)

(** X1: after a successful scrape the number shown by the current gauge of
    a code is the payload's number for it; a code the payload lacks shows
    0 if it had a gauge and still has none otherwise.  The numbers shown
    before the scrape play no part. *)
Theorem current_family_image get data st k :
  snapshot get = Some data →
  value <$> metric_request_status_count_current (scrape get st).1 !! k
  = match go_range (StatusCodeCount data) !! k with
    | Some nbr => Some nbr
    | None => (λ _, 0%float) <$> metric_request_status_count_current st !! k
    end.
Proof.
  intros Hsn. rewrite (scrape_update get st data Hsn). cbn [fst].
  rewrite lookup_update_current.
  destruct (go_range (StatusCodeCount data) !! k); [done|].
  by destruct (metric_request_status_count_current st !! k).
Qed.

Lemma snapshot_body_full :
  snapshot (examples.ok examples.body_full) = Some examples.data_full.
Proof. vm_compute. reflexivity. Qed.

Lemma snapshot_body_next :
  snapshot (examples.ok examples.body_next) = Some examples.data_next.
Proof. vm_compute. reflexivity. Qed.

Lemma current_family_image_witness :
  value <$> metric_request_status_count_current
              (scrape (examples.ok examples.body_full) init).1 !! "500"
  = Some 1%float.
Proof.
  rewrite (current_family_image (examples.ok examples.body_full)
             examples.data_full init "500" snapshot_body_full).
  vm_compute. reflexivity.
Defined.

(** X2: after a successful scrape the number shown by the cumulative gauge
    of a code is the payload's number for it; a code the payload lacks
    shows what it showed before. *)
Theorem total_family_image get data st k :
  snapshot get = Some data →
  value <$> metric_request_status_count_total (scrape get st).1 !! k
  = match go_range (TotalStatusCodeCount data) !! k with
    | Some nbr => Some nbr
    | None => value <$> metric_request_status_count_total st !! k
    end.
Proof.
  intros Hsn. rewrite (scrape_update get st data Hsn). cbn [fst].
  rewrite lookup_update_total.
  by destruct (go_range (TotalStatusCodeCount data) !! k).
Qed.

Lemma total_family_image_witness :
  value <$> metric_request_status_count_total
              (scrape (examples.ok examples.body_full) init).1 !! "200"
  = Some 1000%float.
Proof.
  rewrite (total_family_image (examples.ok examples.body_full)
             examples.data_full init "200" snapshot_body_full).
  vm_compute. reflexivity.
Defined.

(** X3: a successful scrape creates a gauge for the codes of the payload
    and for nothing else: the codes of each family afterwards are the
    codes it had before together with the codes of the matching mapping
    of the payload. *)
Theorem families_domain get data st :
  snapshot get = Some data →
  dom (metric_request_status_count_current (scrape get st).1)
  = dom (metric_request_status_count_current st) ∪ dom (go_range (StatusCodeCount data))
  ∧ dom (metric_request_status_count_total (scrape get st).1)
    = dom (metric_request_status_count_total st) ∪ dom (go_range (TotalStatusCodeCount data)).
Proof.
  intros Hsn. rewrite (scrape_update get st data Hsn). cbn [fst].
  split; apply set_eq; intros k; rewrite elem_of_union, !elem_of_dom.
  - rewrite lookup_update_current.
    destruct (go_range (StatusCodeCount data) !! k);
      destruct (metric_request_status_count_current st !! k); simpl;
      rewrite ?is_Some_alt; tauto.
  - rewrite lookup_update_total.
    destruct (go_range (TotalStatusCodeCount data) !! k);
      destruct (metric_request_status_count_total st !! k); simpl;
      rewrite ?is_Some_alt; tauto.
Qed.

Lemma families_domain_witness :
  dom (metric_request_status_count_current
         (scrape (examples.ok examples.body_next)
                 (scrape (examples.ok examples.body_full) init).1).1)
  = dom (metric_request_status_count_current (scrape (examples.ok examples.body_full) init).1)
    ∪ dom (go_range (StatusCodeCount examples.data_next)).
Proof.
  apply (families_domain (examples.ok examples.body_next) examples.data_next
           (scrape (examples.ok examples.body_full) init).1).
  vm_compute. reflexivity.
Defined.

(* ===================================================================== *)
(** ** Cycles in a row *)
(* ===================================================================== *)

(** X4: a failed cycle leaves no trace on the next one: whatever the next
    response is, [Collect] sends, logs and leaves behind the same as if
    the failed cycle had not happened. *)
Theorem failed_cycle_forgotten get1 get2 st :
  is_Some (scrape get1 st).2 →
  Collect get2 (after (Collect get1 st)) = Collect get2 st.
Proof.
  intros [err Herr]. unfold Collect at 2.
  destruct (scrape get1 st) as [st1 [e|]] eqn:Hs1; simplify_eq/=.
  assert (st1 = st) as ->.
  { change st1 with (st1, Some err).1. rewrite <-Hs1.
    apply scrape_error_state. rewrite Hs1. by eexists. }
  unfold Collect.
  destruct (snapshot get2) as [data|] eqn:Hsn.
  - by rewrite !(scrape_update get2 _ data Hsn).
  - destruct (scrape_refusal get2 st Hsn) as [e2 He2].
    destruct (scrape_refusal get2
                {| nomad_up := Set_ 0%float (nomad_up st);
                   metric_uptime := metric_uptime st;
                   metric_request_response_time_total := metric_request_response_time_total st;
                   metric_request_response_time_avg := metric_request_response_time_avg st;
                   metric_request_status_count_current := metric_request_status_count_current st;
                   metric_request_status_count_total := metric_request_status_count_total st |}
                Hsn) as [e3 He3].
    rewrite He3, He2. simpl.
    assert (e3 = e2) as ->; [|done].
    unfold scrape in He2, He3. destruct get2 as [?|resp]; [congruence|].
    destruct (negb _); [congruence|].
    destruct (decode.Decode (Body resp)); congruence.
Qed.

Lemma failed_cycle_forgotten_witness :
  Collect (examples.ok examples.body_full) (after (Collect examples.get_503 init))
  = Collect (examples.ok examples.body_full) init.
Proof.
  apply (failed_cycle_forgotten examples.get_503 (examples.ok examples.body_full) init).
  vm_compute. by eexists.
Defined.

Lemma exec_current_value st c k :
  value <$> metric_request_status_count_current (exec st c) !! k
  = current_step k (value <$> metric_request_status_count_current st !! k) c.
Proof.
  destruct c as [|get]; [done|]. cbn [exec current_step].
  destruct (snapshot get) as [data|] eqn:Hsn.
  - unfold Collect. rewrite (scrape_update get st data Hsn). cbn [after].
    rewrite lookup_update_current.
    destruct (go_range (StatusCodeCount data) !! k); [done|].
    by destruct (metric_request_status_count_current st !! k).
  - unfold Collect. by destruct (scrape_refusal get st Hsn) as [err ->].
Qed.

Lemma exec_total_value st c k :
  value <$> metric_request_status_count_total (exec st c) !! k
  = total_step k (value <$> metric_request_status_count_total st !! k) c.
Proof.
  destruct c as [|get]; [done|]. cbn [exec total_step].
  destruct (snapshot get) as [data|] eqn:Hsn.
  - unfold Collect. rewrite (scrape_update get st data Hsn). cbn [after].
    rewrite lookup_update_total.
    by destruct (go_range (TotalStatusCodeCount data) !! k).
  - unfold Collect. by destruct (scrape_refusal get st Hsn) as [err ->].
Qed.

(** X5: along every run of calls, the number the current gauge of a code
    shows is the number of the latest successful payload if that payload
    names the code, 0 if it does not but an earlier one did (or the code
    had a gauge at the start), and the code has no gauge otherwise: the
    run of [current_step]. *)
Theorem current_family_history st calls k :
  value <$> metric_request_status_count_current (run st calls) !! k
  = foldl (current_step k) (value <$> metric_request_status_count_current st !! k) calls.
Proof.
  revert st. induction calls as [|c calls IH]; intros st; [done|].
  cbn [run foldl]. fold (run (exec st c) calls).
  by rewrite IH, exec_current_value.
Qed.

(** X6: along every run of calls, the number the cumulative gauge of a code
    shows is the number of the latest successful payload whose cumulative
    mapping names the code, failed cycles and payloads without the code
    being skipped: the run of [total_step]. *)
Theorem total_family_history st calls k :
  value <$> metric_request_status_count_total (run st calls) !! k
  = foldl (total_step k) (value <$> metric_request_status_count_total st !! k) calls.
Proof.
  revert st. induction calls as [|c calls IH]; intros st; [done|].
  cbn [run foldl]. fold (run (exec st c) calls).
  by rewrite IH, exec_total_value.
Qed.

(* ===================================================================== *)
(** ** Descriptors *)
(* ===================================================================== *)

Lemma update_desc_current data st k g :
  metric_request_status_count_current st !! k = Some g →
  desc <$> metric_request_status_count_current (update data st) !! k = Some (desc g).
Proof.
  intros Hg. rewrite lookup_update_current, Hg.
  by destruct (go_range (StatusCodeCount data) !! k).
Qed.

Lemma update_desc_total data st k g :
  metric_request_status_count_total st !! k = Some g →
  desc <$> metric_request_status_count_total (update data st) !! k = Some (desc g).
Proof.
  intros Hg. rewrite lookup_update_total, Hg.
  by destruct (go_range (TotalStatusCodeCount data) !! k).
Qed.

Lemma same_descriptors_refl a : same_descriptors a a.
Proof.
  unfold same_descriptors. split_and!; try done.
  - intros k g Hg. by rewrite Hg.
  - intros k g Hg. by rewrite Hg.
Qed.

Lemma same_descriptors_trans a b c :
  same_descriptors a b → same_descriptors b c → same_descriptors a c.
Proof.
  intros (H1 & H2 & H3 & H4 & H5 & H6) (G1 & G2 & G3 & G4 & G5 & G6).
  unfold same_descriptors. split_and!; try congruence.
  - intros k g Hg. specialize (H5 k g Hg).
    destruct (metric_request_status_count_current b !! k) as [g'|] eqn:Hb; [|done].
    rewrite (G5 k g' Hb). simpl in H5. congruence.
  - intros k g Hg. specialize (H6 k g Hg).
    destruct (metric_request_status_count_total b !! k) as [g'|] eqn:Hb; [|done].
    rewrite (G6 k g' Hb). simpl in H6. congruence.
Qed.

Lemma exec_same_descriptors st c : same_descriptors st (exec st c).
Proof.
  destruct c as [|get]; [apply same_descriptors_refl|]. simpl. unfold Collect.
  destruct (snapshot get) as [data|] eqn:Hsn.
  - rewrite (scrape_update get st data Hsn). cbn [after].
    unfold same_descriptors. split_and!; try done.
    + intros k g. apply update_desc_current.
    + intros k g. apply update_desc_total.
  - destruct (scrape_refusal get st Hsn) as [err ->]. cbn [after].
    unfold same_descriptors; simpl. split_and!; try done.
    + intros k g Hg. by rewrite Hg.
    + intros k g Hg. by rewrite Hg.
Qed.

Lemma run_same_descriptors calls : ∀ st, same_descriptors st (run st calls).
Proof.
  induction calls as [|c calls IH]; intros st; [apply same_descriptors_refl|].
  cbn [run foldl]. fold (run (exec st c) calls).
  eapply same_descriptors_trans; [apply exec_same_descriptors|apply IH].
Qed.

(** X7: no call ever changes a descriptor: along every run the four
    singletons keep their descriptors, and a status code that has a gauge
    in either family keeps one with the same descriptor; only values
    move. *)
Theorem descriptors_fixed st calls :
  desc (nomad_up (run st calls)) = desc (nomad_up st)
  ∧ desc (metric_uptime (run st calls)) = desc (metric_uptime st)
  ∧ desc (metric_request_response_time_total (run st calls))
    = desc (metric_request_response_time_total st)
  ∧ desc (metric_request_response_time_avg (run st calls))
    = desc (metric_request_response_time_avg st)
  ∧ (∀ k g, metric_request_status_count_current st !! k = Some g →
            desc <$> metric_request_status_count_current (run st calls) !! k = Some (desc g))
  ∧ (∀ k g, metric_request_status_count_total st !! k = Some g →
            desc <$> metric_request_status_count_total (run st calls) !! k = Some (desc g)).
Proof. apply run_same_descriptors. Qed.

Lemma descriptors_fixed_witness :
  desc <$> metric_request_status_count_current
             (run (scrape (examples.ok examples.body_full) init).1
                  [CallCollect examples.get_503;
                   CallCollect (examples.ok examples.body_next)]) !! "500"
  = Some (desc (mk_current "500")).
Proof.
  destruct (descriptors_fixed (scrape (examples.ok examples.body_full) init).1
              [CallCollect examples.get_503;
               CallCollect (examples.ok examples.body_next)])
    as (_ & _ & _ & _ & Hcur & _).
  apply (Hcur "500" (Set_ 1%float (mk_current "500"))).
  vm_compute. reflexivity.
Defined.

Lemma reachable_run st : reachable st ↔ ∃ calls, st = run init calls.
Proof.
  split.
  - induction 1 as [|st c _ [calls ->]].
    + by exists [].
    + exists (calls ++ [c])%list. unfold run. by rewrite foldl_snoc.
  - intros [calls ->]. induction calls as [|c calls IH] using rev_ind.
    + constructor.
    + unfold run. rewrite foldl_snoc. by constructor.
Qed.

Lemma reachable_families st :
  reachable st →
  (∀ k g, metric_request_status_count_current st !! k = Some g →
          desc g = desc (mk_current k))
  ∧ (∀ k g, metric_request_status_count_total st !! k = Some g →
            desc g = desc (mk_total k)).
Proof.
  induction 1 as [|st c _ [IHc IHt]]; [by split|].
  destruct c as [|get]; [by split|]. simpl. unfold Collect.
  destruct (snapshot get) as [data|] eqn:Hsn.
  - rewrite (scrape_update get st data Hsn). cbn [after].
    split; intros k g.
    + rewrite lookup_update_current.
      destruct (metric_request_status_count_current st !! k) as [g0|] eqn:Hg0;
        destruct (go_range (StatusCodeCount data) !! k); simpl; intros [= <-];
        first [done | by apply (IHc k g0)].
    + rewrite lookup_update_total.
      destruct (metric_request_status_count_total st !! k) as [g0|] eqn:Hg0;
        destruct (go_range (TotalStatusCodeCount data) !! k); simpl; intros [= <-];
        first [done | by apply (IHt k g0)].
  - destruct (scrape_refusal get st Hsn) as [err ->]. by split.
Qed.

(** X8: in every state the process can reach, the gauge a family holds
    under a status code is the one built for that code: in the current
    family it is named [nomad_request_count_current], in the cumulative
    family [nomad_request_count_total], and in both its only label is
    [statusCode], set to the code it is stored under. *)
Theorem reachable_descriptors st k g :
  reachable st →
  (metric_request_status_count_current st !! k = Some g →
   fqName (desc g) = "nomad_request_count_current"
   ∧ constLabels (desc g) = {[ "statusCode" := k ]}
   ∧ help (desc g) = "Number of request handled by Nomad")
  ∧ (metric_request_status_count_total st !! k = Some g →
     fqName (desc g) = "nomad_request_count_total"
     ∧ constLabels (desc g) = {[ "statusCode" := k ]}
     ∧ help (desc g) = "Number of request handled by Nomad").
Proof.
  intros [Hc Ht]%reachable_families.
  split; intros Hg; [rewrite (Hc k g Hg)|rewrite (Ht k g Hg)]; done.
Qed.

Lemma reachable_descriptors_witness :
  fqName (desc (Set_ 10%float (mk_current "200"))) = "nomad_request_count_current"
  ∧ constLabels (desc (Set_ 10%float (mk_current "200"))) = {[ "statusCode" := "200" ]}
  ∧ help (desc (Set_ 10%float (mk_current "200"))) = "Number of request handled by Nomad".
Proof.
  apply (reachable_descriptors
           (exec init (CallCollect (examples.ok examples.body_full))) "200"
           (Set_ 10%float (mk_current "200"))).
  - apply reachable_exec, reachable_init.
  - vm_compute. reflexivity.
Defined.

Lemma reachable_singletons st :
  reachable st →
  desc (nomad_up st) = desc (nomad_up init)
  ∧ desc (metric_uptime st) = desc (metric_uptime init)
  ∧ desc (metric_request_response_time_total st)
    = desc (metric_request_response_time_total init)
  ∧ desc (metric_request_response_time_avg st)
    = desc (metric_request_response_time_avg init).
Proof.
  intros [calls ->]%reachable_run.
  destruct (run_same_descriptors calls init) as (H1 & H2 & H3 & H4 & _).
  by split_and!.
Qed.

(** What [Describe] sends in a reachable state, by status code. *)
Lemma Describe_reachable st :
  reachable st →
  Describe st =
    ([desc (metric_uptime init); desc (nomad_up init);
      desc (metric_request_response_time_total init);
      desc (metric_request_response_time_avg init)]
     ++ ((λ k, desc (mk_current k)) <$> (map_to_list (metric_request_status_count_current st)).*1)
     ++ ((λ k, desc (mk_total k)) <$> (map_to_list (metric_request_status_count_total st)).*1))%list.
Proof.
  intros Hst. destruct (reachable_singletons st Hst) as (H1 & H2 & H3 & H4).
  destruct (reachable_families st Hst) as [Hc Ht].
  unfold Describe. rewrite H1, H2, H3, H4. f_equal.
  rewrite <-!list_fmap_compose. f_equal.
  - apply Forall_fmap_ext_1, Forall_forall. intros [k g] Hin%elem_of_map_to_list.
    simpl. by apply Hc.
  - apply Forall_fmap_ext_1, Forall_forall. intros [k g] Hin%elem_of_map_to_list.
    simpl. by apply Ht.
Qed.

Lemma mk_current_inj k1 k2 : desc (mk_current k1) = desc (mk_current k2) → k1 = k2.
Proof.
  intros H. assert (constLabels (desc (mk_current k1)) !! "statusCode"
                    = constLabels (desc (mk_current k2)) !! "statusCode") as Hl
    by by rewrite H.
  simpl in Hl. rewrite !lookup_singleton_eq in Hl. by simplify_eq.
Qed.

Lemma mk_total_inj k1 k2 : desc (mk_total k1) = desc (mk_total k2) → k1 = k2.
Proof.
  intros H. assert (constLabels (desc (mk_total k1)) !! "statusCode"
                    = constLabels (desc (mk_total k2)) !! "statusCode") as Hl
    by by rewrite H.
  simpl in Hl. rewrite !lookup_singleton_eq in Hl. by simplify_eq.
Qed.

Lemma elem_of_current_descs d (ks : list string) :
  d ∈ (λ k, desc (mk_current k)) <$> ks → fqName d = "nomad_request_count_current".
Proof. intros (k & -> & _)%list_elem_of_fmap. reflexivity. Qed.

Lemma elem_of_total_descs d (ks : list string) :
  d ∈ (λ k, desc (mk_total k)) <$> ks → fqName d = "nomad_request_count_total".
Proof. intros (k & -> & _)%list_elem_of_fmap. reflexivity. Qed.

(** X9: in every state the process can reach, [Describe] sends no
    descriptor twice: the four singletons and the gauges of the two
    families are told apart by name and by the [statusCode] label. *)
Theorem Describe_NoDup st :
  reachable st → NoDup (Describe st).
Proof.
  intros Hst. rewrite (Describe_reachable st Hst).
  apply NoDup_app. split_and!.
  - by_decide.
  - intros d Hd Hin. apply elem_of_app in Hin as [Hin|Hin].
    + apply elem_of_current_descs in Hin.
      repeat (apply elem_of_cons in Hd as [->|Hd]; [discriminate Hin|]).
      by apply elem_of_nil in Hd.
    + apply elem_of_total_descs in Hin.
      repeat (apply elem_of_cons in Hd as [->|Hd]; [discriminate Hin|]).
      by apply elem_of_nil in Hd.
  - apply NoDup_app. split_and!.
    + apply NoDup_fmap_2_strong; [|apply NoDup_fst_map_to_list].
      intros k1 k2 _ _. apply mk_current_inj.
    + intros d Hc%elem_of_current_descs Ht%elem_of_total_descs.
      rewrite Hc in Ht. discriminate Ht.
    + apply NoDup_fmap_2_strong; [|apply NoDup_fst_map_to_list].
      intros k1 k2 _ _. apply mk_total_inj.
Qed.

Lemma Describe_NoDup_witness :
  NoDup (Describe (exec (exec init (CallCollect (examples.ok examples.body_full)))
                        (CallCollect (examples.ok examples.body_second)))).
Proof.
  apply (Describe_NoDup
           (exec (exec init (CallCollect (examples.ok examples.body_full)))
                 (CallCollect (examples.ok examples.body_second)))).
  apply reachable_exec, reachable_exec, reachable_init.
Defined.

(** X10: in every state the process can reach, every descriptor that
    [Describe] sends carries one of the six metric names of the source,
    each under the [nomad] namespace. *)
Theorem Describe_names st d :
  reachable st → d ∈ Describe st → fqName d ∈ metric_names.
Proof.
  intros Hst. rewrite (Describe_reachable st Hst).
  rewrite !elem_of_app. intros [Hd|[Hd|Hd]].
  - repeat (apply elem_of_cons in Hd as [->|Hd]; [by_decide|]).
    by apply elem_of_nil in Hd.
  - rewrite (elem_of_current_descs d _ Hd). by_decide.
  - rewrite (elem_of_total_descs d _ Hd). by_decide.
Qed.

Lemma Describe_names_witness :
  fqName (desc (mk_total "200")) ∈ metric_names.
Proof.
  apply (Describe_names (exec init (CallCollect (examples.ok examples.body_full)))
           (desc (mk_total "200"))).
  - apply reachable_exec, reachable_init.
  - by_decide.
Defined.

Lemma elem_of_family_descs (m : gmap string Gauge) d :
  d ∈ desc <$> (map_to_list m).*2 ↔ ∃ k g, m !! k = Some g ∧ d = desc g.
Proof.
  rewrite list_elem_of_fmap. split.
  - intros (g & -> & ([k g'] & -> & Hin%elem_of_map_to_list)%list_elem_of_fmap).
    by exists k, g'.
  - intros (k & g & Hg & ->). exists g. split; [done|].
    apply list_elem_of_fmap. exists (k, g). split; [done|].
    by apply elem_of_map_to_list.
Qed.

Lemma elem_of_Describe st d :
  d ∈ Describe st ↔
    d = desc (metric_uptime st) ∨ d = desc (nomad_up st)
    ∨ d = desc (metric_request_response_time_total st)
    ∨ d = desc (metric_request_response_time_avg st)
    ∨ (∃ k g, metric_request_status_count_current st !! k = Some g ∧ d = desc g)
    ∨ (∃ k g, metric_request_status_count_total st !! k = Some g ∧ d = desc g).
Proof.
  unfold Describe.
  rewrite !elem_of_app, !elem_of_cons, elem_of_nil, !elem_of_family_descs. tauto.
Qed.

(** X11: [Collect] sends nothing that [Describe] would not describe: the
    descriptor of every gauge sent is among those [Describe] sends in the
    state the call leaves; and after a successful scrape the descriptors
    of the gauges sent are those of [Describe], each once, in another
    order. *)
Theorem Collect_described get st :
  (∀ g, g ∈ sent (Collect get st) → desc g ∈ Describe (after (Collect get st)))
  ∧ ((scrape get st).2 = None →
     desc <$> sent (Collect get st) ≡ₚ Describe (after (Collect get st))).
Proof.
  unfold Collect. destruct (scrape get st) as [st' [err|]]; cbn [after sent snd].
  - split; [|done]. intros g ->%list_elem_of_singleton.
    apply elem_of_Describe. right. by left.
  - assert (desc <$> ([nomad_up st'; metric_uptime st';
                       metric_request_response_time_total st';
                       metric_request_response_time_avg st']
                      ++ (map_to_list (metric_request_status_count_current st')).*2
                      ++ (map_to_list (metric_request_status_count_total st')).*2)%list
            ≡ₚ Describe st') as Hperm.
    { unfold Describe. rewrite !fmap_app. simpl. apply perm_swap. }
    split; [|done]. intros g Hg. rewrite <-Hperm. by apply list_elem_of_fmap_2.
Qed.

Lemma Collect_described_witness :
  desc <$> sent (Collect (examples.ok examples.body_full) init)
  ≡ₚ Describe (after (Collect (examples.ok examples.body_full) init)).
Proof.
  apply (Collect_described (examples.ok examples.body_full) init).
  vm_compute. reflexivity.
Defined.

Lemma Describe_length st :
  length (Describe st)
  = 4 + size (metric_request_status_count_current st)
      + size (metric_request_status_count_total st).
Proof.
  unfold Describe. rewrite !length_app, !length_fmap, !length_map_to_list.
  simpl. lia.
Qed.

Lemma size_kept (m1 m2 : gmap string Gauge) :
  (∀ k, is_Some (m1 !! k) → is_Some (m2 !! k)) → (size m1 ≤ size m2)%nat.
Proof.
  intros Hk. rewrite <-!size_dom. apply subseteq_size.
  intros k. rewrite !elem_of_dom. apply Hk.
Qed.

(** X12: [Describe] sends the four singletons and one descriptor per gauge
    of each family, and what it sends only grows: every descriptor it
    sends in a state it still sends after any run of calls from that
    state, so its output never gets shorter. *)
Theorem Describe_grows st calls :
  length (Describe st)
  = 4 + size (metric_request_status_count_current st)
      + size (metric_request_status_count_total st)
  ∧ (∀ d, d ∈ Describe st → d ∈ Describe (run st calls))
  ∧ (length (Describe st) ≤ length (Describe (run st calls)))%nat.
Proof.
  split_and!.
  - apply Describe_length.
  - intros d. rewrite !elem_of_Describe.
    destruct (run_same_descriptors calls st) as (H1 & H2 & H3 & H4 & H5 & H6).
    rewrite H1, H2, H3, H4.
    intros [?|[?|[?|[?|[(k & g & Hg & ->)|(k & g & Hg & ->)]]]]]; auto.
    + do 4 right. left. specialize (H5 k g Hg).
      destruct (metric_request_status_count_current (run st calls) !! k) as [g'|] eqn:Hg';
        [|done].
      exists k, g'. split; [done|]. simpl in H5. congruence.
    + do 5 right. specialize (H6 k g Hg).
      destruct (metric_request_status_count_total (run st calls) !! k) as [g'|] eqn:Hg';
        [|done].
      exists k, g'. split; [done|]. simpl in H6. congruence.
  - rewrite !Describe_length.
    pose proof (size_kept (metric_request_status_count_current st)
                  (metric_request_status_count_current (run st calls))
                  (λ k, proj1 (run_keeps calls st k))).
    pose proof (size_kept (metric_request_status_count_total st)
                  (metric_request_status_count_total (run st calls))
                  (λ k, proj2 (run_keeps calls st k))).
    lia.
Qed.

Lemma Describe_grows_witness :
  desc (mk_current "500")
  ∈ Describe (run (scrape (examples.ok examples.body_full) init).1
                  [CallCollect (examples.ok examples.body_next); CallCollect examples.get_503]).
Proof.
  destruct (Describe_grows (scrape (examples.ok examples.body_full) init).1
              [CallCollect (examples.ok examples.body_next); CallCollect examples.get_503])
    as (_ & Hin & _).
  apply Hin. by_decide.
Defined.

(* ===================================================================== *)
(** ** Decoding whole documents *)
(* ===================================================================== *)

Lemma fieldOf_tag f : decode.fieldOf (tag f) = Some f.
Proof. destruct f; vm_compute; reflexivity. Qed.

Lemma storeMembers_numbers (l : list (string * float64)) : ∀ m0,
  decode.storeMembers (prod_map id (λ x, json.Number (Some x)) <$> l) m0
  = Some (foldl (λ acc kv, <[kv.1 := kv.2]> acc) m0 l).
Proof.
  induction l as [|[k x] l IH]; intros m0; [done|].
  cbn [fmap list_fmap prod_map decode.storeMembers decode.storeFloat foldl fst snd id].
  apply IH.
Qed.

Lemma lookup_foldl_insert (l : list (string * float64)) : ∀ (m0 : gmap string float) k,
  NoDup l.*1 →
  foldl (λ acc kv, <[kv.1 := kv.2]> acc) m0 l !! k
  = match (list_to_map l : gmap string float) !! k with
    | Some x => Some x
    | None => m0 !! k
    end.
Proof.
  induction l as [|[k1 x1] l IH]; intros m0 k Hnd; [done|].
  apply NoDup_cons in Hnd as [Hk1 Hnd]. cbn [foldl fst snd].
  rewrite (IH _ k Hnd), list_to_map_cons.
  destruct (decide (k1 = k)) as [->|Hne].
  - rewrite (not_elem_of_list_to_map_1 _ _ Hk1), !lookup_insert_eq. done.
  - rewrite !lookup_insert_ne by done. done.
Qed.

Lemma storeMap_document_map (m : gomap) :
  decode.storeMap (document_map m) None = Some m.
Proof.
  destruct m as [m|]; [|done]. unfold document_map, decode.storeMap.
  rewrite storeMembers_numbers. simpl. do 2 f_equal.
  apply map_eq. intros k.
  rewrite lookup_foldl_insert by apply NoDup_fst_map_to_list.
  rewrite list_to_map_to_list, lookup_empty. by destruct (m !! k).
Qed.

Lemma depth_document_map (m : gomap) : (json.depth (document_map m) ≤ 1)%N.
Proof.
  destruct m as [m|]; [|done]. unfold document_map.
  change 1%N with (N.succ 0). apply depth_Object_bound, Forall_fmap, Forall_forall.
  by intros [k x] _.
Qed.

Lemma depth_document d : (json.depth (document d) ≤ json.maxNestingDepth)%N.
Proof.
  pose proof (depth_document_map (StatusCodeCount d)) as Hc.
  pose proof (depth_document_map (TotalStatusCodeCount d)) as Ht.
  rewrite maxNestingDepth_succ. unfold document. apply depth_Object_bound.
  repeat constructor; cbn [snd json.depth]; lia.
Qed.

(** X13: the five tags are read back into their own fields: the document
    that spells out a struct under the five tags (numbers as numbers, a
    map as an object, a nil map as null) decodes without error to that
    very struct. *)
Theorem Decode_document d :
  decode.Decode (Some (document d)) = Some d.
Proof.
  rewrite (Decode_within _ (depth_document d)).
  destruct d as [u scc tscc t a].
  unfold document. cbn [decode.storeObject].
  rewrite !fieldOf_tag.
  cbn [decode.storeField decode.storeFloat zero_nomadHealth
       UpTimeSec StatusCodeCount TotalStatusCodeCount
       TotalResponseTimeSec AverageResponseTimeSec mbind option_bind].
  rewrite storeMap_document_map.
  cbn [UpTimeSec StatusCodeCount TotalStatusCodeCount
       TotalResponseTimeSec AverageResponseTimeSec mbind option_bind].
  rewrite storeMap_document_map. reflexivity.
Qed.

Lemma storeObject_unknown members : ∀ d,
  Forall (λ kv, ∀ f, json.equalFoldRight (tag f) kv.1 = false) members →
  decode.storeObject members d = Some d.
Proof.
  induction members as [|[k v] rest IH]; intros d Hall; [done|].
  apply Forall_cons in Hall as [Hk Hrest]. cbn [decode.storeObject].
  unfold decode.fieldOf. rewrite (lookupField_None fields k Hk). by apply IH.
Qed.

(** X14: a document that says nothing about the five fields still counts
    as a successful scrape.  For a status in 200..299 and a body that is
    null, or an object within the decoder's nesting limit none of whose
    keys matches a tag (the empty object among them), [scrape] returns
    nil, the flag reads 1, the three other singletons read 0, every gauge
    of the current family reads 0 and the cumulative family is
    untouched. *)
Theorem scrape_silent_document code body st :
  (200 ≤ code ≤ 299)%Z →
  body = json.Null
  ∨ (∃ members, body = json.Object members
       ∧ (json.depth (json.Object members) ≤ json.maxNestingDepth)%N
       ∧ Forall (λ kv, ∀ f, json.equalFoldRight (tag f) kv.1 = false) members) →
  (scrape (GetOk {| StatusCode := code; Body := Some body |}) st).2 = None
  ∧ value (nomad_up (scrape (GetOk {| StatusCode := code; Body := Some body |}) st).1)
    = 1%float
  ∧ value (metric_uptime (scrape (GetOk {| StatusCode := code; Body := Some body |}) st).1)
    = 0%float
  ∧ value (metric_request_response_time_total
             (scrape (GetOk {| StatusCode := code; Body := Some body |}) st).1) = 0%float
  ∧ value (metric_request_response_time_avg
             (scrape (GetOk {| StatusCode := code; Body := Some body |}) st).1) = 0%float
  ∧ metric_request_status_count_current
      (scrape (GetOk {| StatusCode := code; Body := Some body |}) st).1
    = Set_ 0%float <$> metric_request_status_count_current st
  ∧ metric_request_status_count_total
      (scrape (GetOk {| StatusCode := code; Body := Some body |}) st).1
    = metric_request_status_count_total st.
Proof.
  intros Hcode Hbody.
  assert (decode.Decode (Some body) = Some zero_nomadHealth) as Hd.
  { destruct Hbody as [->|(members & -> & Hdepth & Hall)]; [done|].
    rewrite (Decode_within _ Hdepth). by apply storeObject_unknown. }
  rewrite (scrape_update _ st zero_nomadHealth) by by apply snapshot_GetOk.
  cbn [fst snd]. split_and!; try done.
Qed.

Lemma scrape_silent_document_witness :
  (scrape (examples.ok (json.Object [("pid", examples.num 42%float)]))
          (scrape (examples.ok examples.body_full) init).1).2 = None
  ∧ metric_request_status_count_current
      (scrape (examples.ok (json.Object [("pid", examples.num 42%float)]))
              (scrape (examples.ok examples.body_full) init).1).1
    = Set_ 0%float <$> metric_request_status_count_current
                         (scrape (examples.ok examples.body_full) init).1.
Proof.
  destruct (scrape_silent_document 200 (json.Object [("pid", examples.num 42%float)])
              (scrape (examples.ok examples.body_full) init).1)
    as (Hnil & _ & _ & _ & _ & Hcur & _).
  - lia.
  - right. eexists. split_and!; [reflexivity|by_decide|].
    repeat constructor. intros f. destruct f; reflexivity.
  - by split.
Defined.

(* ===================================================================== *)
(** ** From the payload to the channel *)
(* ===================================================================== *)

Lemma exec_singletons st c :
  value (metric_uptime (exec st c))
  = singleton_step UpTimeSec (value (metric_uptime st)) c
  ∧ value (metric_request_response_time_total (exec st c))
    = singleton_step TotalResponseTimeSec (value (metric_request_response_time_total st)) c
  ∧ value (metric_request_response_time_avg (exec st c))
    = singleton_step AverageResponseTimeSec (value (metric_request_response_time_avg st)) c.
Proof.
  destruct c as [|get]; [done|]. cbn [exec singleton_step]. unfold Collect.
  destruct (snapshot get) as [data|] eqn:Hsn.
  - by rewrite (scrape_update get st data Hsn).
  - by destruct (scrape_refusal get st Hsn) as [err ->].
Qed.

(** X15: along every run of calls the uptime, total-response-time and
    average-response-time gauges show the fields of the latest successful
    payload; failed cycles and [Describe] leave them as they are, so the
    numbers of the last good scrape stay in place while the flag reads
    0. *)
Theorem singletons_history st calls :
  value (metric_uptime (run st calls))
  = foldl (singleton_step UpTimeSec) (value (metric_uptime st)) calls
  ∧ value (metric_request_response_time_total (run st calls))
    = foldl (singleton_step TotalResponseTimeSec)
            (value (metric_request_response_time_total st)) calls
  ∧ value (metric_request_response_time_avg (run st calls))
    = foldl (singleton_step AverageResponseTimeSec)
            (value (metric_request_response_time_avg st)) calls.
Proof.
  revert st. induction calls as [|c calls IH]; intros st; [done|].
  cbn [run foldl]. fold (run (exec st c) calls).
  destruct (IH (exec st c)) as (H1 & H2 & H3).
  destruct (exec_singletons st c) as (E1 & E2 & E3).
  by rewrite H1, H2, H3, E1, E2, E3.
Qed.

Lemma Gauge_eq (g1 g2 : Gauge) :
  desc g1 = desc g2 → value g1 = value g2 → g1 = g2.
Proof. destruct g1, g2; simpl; congruence. Qed.

Lemma sent_update get st data :
  snapshot get = Some data →
  sent (Collect get st)
  = ([nomad_up (update data st); metric_uptime (update data st);
      metric_request_response_time_total (update data st);
      metric_request_response_time_avg (update data st)]
     ++ (map_to_list (metric_request_status_count_current (update data st))).*2
     ++ (map_to_list (metric_request_status_count_total (update data st))).*2)%list.
Proof. intros Hsn. unfold Collect. by rewrite (scrape_update get st data Hsn). Qed.

Lemma elem_of_values (m : gmap string Gauge) k g :
  m !! k = Some g → g ∈ (map_to_list m).*2.
Proof.
  intros Hg. apply list_elem_of_fmap. exists (k, g). split; [done|].
  by apply elem_of_map_to_list.
Qed.

(** X16: from the payload to the channel.  In a state the process can
    reach, a [Collect] whose scrape succeeds sends, for every status code
    of the payload's current mapping, the gauge named
    [nomad_request_count_current] with the label [statusCode] set to that
    code and the payload's number as its value; the same for the
    cumulative mapping under [nomad_request_count_total]; and the uptime
    gauge with the payload's [uptime_sec]. *)
Theorem Collect_sends_payload st get data :
  reachable st →
  snapshot get = Some data →
  (∀ k nbr, go_range (StatusCodeCount data) !! k = Some nbr →
            Set_ nbr (mk_current k) ∈ sent (Collect get st))
  ∧ (∀ k nbr, go_range (TotalStatusCodeCount data) !! k = Some nbr →
              Set_ nbr (mk_total k) ∈ sent (Collect get st))
  ∧ Set_ (UpTimeSec data) (metric_uptime init) ∈ sent (Collect get st)
  ∧ Set_ 1%float (nomad_up init) ∈ sent (Collect get st).
Proof.
  intros Hst Hsn.
  destruct (reachable_families st Hst) as [Hc Ht].
  destruct (reachable_singletons st Hst) as (Hup & Huptime & _).
  rewrite (sent_update get st data Hsn).
  split_and!.
  - intros k nbr Hk. rewrite !elem_of_app. right. left.
    apply (elem_of_values _ k). rewrite lookup_update_current, Hk. f_equal.
    destruct (metric_request_status_count_current st !! k) as [g0|] eqn:Hg0; [|done].
    apply Gauge_eq; [|done]. simpl. by apply Hc.
  - intros k nbr Hk. rewrite !elem_of_app. right. right.
    apply (elem_of_values _ k). rewrite lookup_update_total, Hk. f_equal.
    destruct (metric_request_status_count_total st !! k) as [g0|] eqn:Hg0; [|done].
    apply Gauge_eq; [|done]. simpl. by apply Ht.
  - apply elem_of_app. left. apply elem_of_cons. right. apply elem_of_cons. left.
    apply Gauge_eq; [|done]. symmetry. exact Huptime.
  - apply elem_of_app. left. apply elem_of_cons. left.
    apply Gauge_eq; [|done]. symmetry. exact Hup.
Qed.

Lemma Collect_sends_payload_witness :
  Set_ 12%float (mk_current "200")
  ∈ sent (Collect (examples.ok examples.body_next)
                  (exec init (CallCollect (examples.ok examples.body_full)))).
Proof.
  destruct (Collect_sends_payload
              (exec init (CallCollect (examples.ok examples.body_full)))
              (examples.ok examples.body_next) examples.data_next)
    as (Hcur & _).
  - apply reachable_exec, reachable_init.
  - vm_compute. reflexivity.
  - apply Hcur. vm_compute. reflexivity.
Defined.
